(** * BankSystem: the account and transaction models

    A shallow embedding of [models/transaction.py] and [models/account.py]
    together with the parts of the Python runtime the two files rely on:
    the numeric tower ([int], [float] and their mixed arithmetic), exceptions,
    [round], [datetime.isoformat] / [datetime.fromisoformat], dictionaries and
    mutable objects shared by reference.

    Layout: the Python runtime, then [Transaction], then [Bankaccount], then
    the properties of the ledger. *)

From Stdlib Require Import ZArith Ascii String SpecFloat.
From stdpp Require Import gmap strings list pretty.

Local Open Scope Z_scope.

(** ** Exceptions

    The exception classes that the two modules raise or meet.  [str(e)] is
    what the [f"... {e}"] strings of [deposit] and [withdraw] print. *)

Inductive exn :=
| ValueError (msg : string)
| TypeError (msg : string)
| KeyError (key : string)
| OverflowError (msg : string)
| AttributeError (msg : string).

Definition exn_str (e : exn) : string :=
  match e with
  | ValueError m | TypeError m | OverflowError m | AttributeError m => m
  | KeyError k => "'" +:+ k +:+ "'"
  end.

Definition is_ValueError (e : exn) : bool :=
  match e with ValueError _ => true | _ => false end.

Definition is_KeyError (e : exn) : bool :=
  match e with KeyError _ => true | _ => false end.

(** The result of evaluating an expression: a value or a raised exception. *)
Inductive res (A : Type) :=
| Ret (a : A)
| Raise (e : exn).
Arguments Ret {A} a.
Arguments Raise {A} e.

Definition res_bind {A B} (r : res A) (k : A → res B) : res B :=
  match r with
  | Ret a => k a
  | Raise e => Raise e
  end.

Definition res_option {A} (r : res A) : option A :=
  match r with Ret a => Some a | Raise _ => None end.

(** ** Floats

    A Python [float] is an IEEE 754 binary64 number.  [spec_float] with
    precision 53 and maximal exponent 1024 is that format; its operations
    round to nearest, ties to even. *)

Definition prec : Z := 53.
Definition emax : Z := 1024.

Definition float := spec_float.

Definition float_add : float → float → float := SFadd prec emax.
Definition float_sub : float → float → float := SFsub prec emax.
Definition float_mul : float → float → float := SFmul prec emax.
Definition float_div : float → float → float := SFdiv prec emax.

(** The float nearest to an integer; an infinity when it is out of range. *)
Definition float_of_Z (z : Z) : float := binary_normalize prec emax z 0 false.

(** The float nearest to the fraction [n / d]: what the Python parser makes
    of a decimal literal such as [0.92] (n = 92, d = 100). *)
Definition float_of_ratio (n : Z) (d : positive) : float :=
  match n with
  | Z0 => S754_zero false
  | Zpos p =>
      let '(mz, ez, lz) := SFdiv_core_binary prec emax (Zpos p) 0 (Zpos d) 0 in
      binary_round_aux prec emax false mz ez lz
  | Zneg p =>
      let '(mz, ez, lz) := SFdiv_core_binary prec emax (Zpos p) 0 (Zpos d) 0 in
      binary_round_aux prec emax true mz ez lz
  end.

Definition float_is_inf (f : float) : bool :=
  match f with S754_infinity _ => true | _ => false end.

Definition float_is_nan (f : float) : bool :=
  match f with S754_nan => true | _ => false end.

(** [round(x, 2)] on a float.  CPython prints [x] to two decimals, correctly
    rounded with ties to even on the exact binary value, and reads the
    decimal string back: the result is the float nearest to [n / 100] where
    [n] is the integer nearest to [100 x].  Zeros, infinities and NaN round
    to themselves. *)
Definition round_half_even (a d : Z) : Z :=
  let q := a / d in
  let r := a mod d in
  match 2 * r ?= d with
  | Lt => q
  | Gt => q + 1
  | Eq => if Z.even q then q else q + 1
  end.

Definition float_round2 (x : float) : float :=
  match x with
  | S754_finite s m e =>
      let n := if 0 <=? e then 100 * Zpos m * 2 ^ e
               else round_half_even (100 * Zpos m) (2 ^ (- e)) in
      match n with
      | Zpos p => float_of_ratio (if s then Zneg p else Zpos p) 100
      | _ => S754_zero s
      end
  | _ => x
  end.

(** [x.is_integer()] and [int(x)] for a float with an integral value. *)
Definition float_integral (x : float) : option Z :=
  match x with
  | S754_zero _ => Some 0
  | S754_finite s m e =>
      let v := if s then Zneg m else Zpos m in
      if 0 <=? e then Some (v * 2 ^ e)
      else if Zpos m mod 2 ^ (- e) =? 0 then Some (v / 2 ^ (- e)) else None
  | _ => None
  end.

(** ** Numbers: [int] and [float]

    Python integers are unbounded.  Arithmetic between an [int] and a
    [float] first converts the integer, which raises [OverflowError] when
    it is too large; float arithmetic itself overflows silently to an
    infinity.  Comparisons between an [int] and a [float] are exact. *)

Inductive num :=
| Int (z : Z)
| Float (f : float).

Definition int_to_float (z : Z) : res float :=
  let f := float_of_Z z in
  if float_is_inf f then Raise (OverflowError "int too large to convert to float")
  else Ret f.

Definition num_arith (iop : Z → Z → Z) (fop : float → float → float)
    (a b : num) : res num :=
  match a, b with
  | Int x, Int y => Ret (Int (iop x y))
  | Float x, Float y => Ret (Float (fop x y))
  | Int x, Float y => res_bind (int_to_float x) (λ fx, Ret (Float (fop fx y)))
  | Float x, Int y => res_bind (int_to_float y) (λ fy, Ret (Float (fop x fy)))
  end.

Definition num_add : num → num → res num := num_arith Z.add float_add.
Definition num_sub : num → num → res num := num_arith Z.sub float_sub.
Definition num_mul : num → num → res num := num_arith Z.mul float_mul.

(** Exact comparison of an integer with a float; [None] on NaN. *)
Definition Z_float_compare (z : Z) (f : float) : option comparison :=
  match f with
  | S754_nan => None
  | S754_infinity s => Some (if s then Gt else Lt)
  | S754_zero _ => Some (z ?= 0)
  | S754_finite s m e =>
      let v := if s then Zneg m else Zpos m in
      if 0 <=? e then Some (z ?= v * 2 ^ e)
      else Some (z * 2 ^ (- e) ?= v)
  end.

Definition num_compare (a b : num) : option comparison :=
  match a, b with
  | Int x, Int y => Some (x ?= y)
  | Float x, Float y => SFcompare x y
  | Int x, Float y => Z_float_compare x y
  | Float x, Int y => CompOpp <$> Z_float_compare y x
  end.

Definition num_ltb (a b : num) : bool :=
  match num_compare a b with Some Lt => true | _ => false end.
Definition num_leb (a b : num) : bool :=
  match num_compare a b with Some (Lt | Eq) => true | _ => false end.
Definition num_gtb (a b : num) : bool :=
  match num_compare a b with Some Gt => true | _ => false end.
Definition num_geb (a b : num) : bool :=
  match num_compare a b with Some (Gt | Eq) => true | _ => false end.
Definition num_eqb (a b : num) : bool :=
  match num_compare a b with Some Eq => true | _ => false end.

(** [round(x, 2)]: an [int] rounds to itself. *)
Definition num_round2 (a : num) : num :=
  match a with
  | Int z => Int z
  | Float f => Float (float_round2 f)
  end.

(** ** Dates and times

    A naive [datetime], as [datetime.now()] returns it. *)

Record datetime := Datetime {
  year : Z;
  month : Z;
  day : Z;
  hour : Z;
  minute : Z;
  second : Z;
  microsecond : Z
}.

Definition is_leap (y : Z) : bool :=
  (y mod 4 =? 0) && (negb (y mod 100 =? 0) || (y mod 400 =? 0)).

Definition days_in_month (y m : Z) : Z :=
  if m =? 2 then (if is_leap y then 29 else 28)
  else if (m =? 4) || (m =? 6) || (m =? 9) || (m =? 11) then 30
  else 31.

Definition in_range (lo x hi : Z) : bool := (lo <=? x) && (x <=? hi).

(** The ranges the [datetime] constructor enforces. *)
Definition datetime_ok (d : datetime) : bool :=
  in_range 1 (year d) 9999 && in_range 1 (month d) 12 &&
  in_range 1 (day d) (days_in_month (year d) (month d)) &&
  in_range 0 (hour d) 23 && in_range 0 (minute d) 59 &&
  in_range 0 (second d) 59 && in_range 0 (microsecond d) 999999.

Definition digit_char (d : Z) : ascii := ascii_of_nat (Z.to_nat (48 + d)).

Definition char_digit (c : ascii) : option Z :=
  let n := Z.of_nat (nat_of_ascii c) in
  if in_range 48 n 57 then Some (n - 48) else None.

(** [w] decimal digits of [v], zero padded: the [%0wd] of [isoformat]. *)
Fixpoint zero_pad (w : nat) (v : Z) : string :=
  match w with
  | O => EmptyString
  | S k => String (digit_char (v / 10 ^ Z.of_nat k mod 10)) (zero_pad k v)
  end.

(** Reads exactly [w] decimal digits. *)
Fixpoint read_digits (w : nat) (acc : Z) (s : string) : option (Z * string) :=
  match w with
  | O => Some (acc, s)
  | S k =>
      match s with
      | String c r =>
          match char_digit c with
          | Some d => read_digits k (10 * acc + d) r
          | None => None
          end
      | EmptyString => None
      end
  end.

Definition expect_char (c : ascii) (s : string) : option string :=
  match s with
  | String c' r => if Ascii.eqb c c' then Some r else None
  | EmptyString => None
  end.

(** [datetime.isoformat()]: [YYYY-MM-DDTHH:MM:SS], followed by [.ffffff]
    when the microsecond is not zero. *)
Definition isoformat (d : datetime) : string :=
  zero_pad 4 (year d) +:+ "-" +:+ zero_pad 2 (month d) +:+ "-" +:+
  zero_pad 2 (day d) +:+ "T" +:+ zero_pad 2 (hour d) +:+ ":" +:+
  zero_pad 2 (minute d) +:+ ":" +:+ zero_pad 2 (second d) +:+
  (if microsecond d =? 0 then "" else "." +:+ zero_pad 6 (microsecond d)).

(** The fraction of a second: [.fff] or [.ffffff], nothing after it. *)
Definition parse_fraction (s : string) : option Z :=
  match read_digits 3 0 s with
  | Some (ms, EmptyString) => Some (ms * 1000)
  | Some (ms, r) =>
      match read_digits 3 ms r with
      | Some (us, EmptyString) => Some us
      | _ => None
      end
  | None => None
  end.

(** The time of day: [HH[:MM[:SS[.fff[fff]]]]]. *)
Definition parse_time (s : string) : option (Z * Z * Z * Z) :=
  '(h, s1) ← read_digits 2 0 s;
  match s1 with
  | EmptyString => Some (h, 0, 0, 0)
  | _ =>
      s2 ← expect_char ":" s1;
      '(mi, s3) ← read_digits 2 0 s2;
      match s3 with
      | EmptyString => Some (h, mi, 0, 0)
      | _ =>
          s4 ← expect_char ":" s3;
          '(sec, s5) ← read_digits 2 0 s4;
          match s5 with
          | EmptyString => Some (h, mi, sec, 0)
          | _ =>
              s6 ← expect_char "." s5;
              us ← parse_fraction s6;
              Some (h, mi, sec, us)
          end
      end
  end.

Definition parse_iso (s : string) : option datetime :=
  '(y, s1) ← read_digits 4 0 s;
  s2 ← expect_char "-" s1;
  '(mo, s3) ← read_digits 2 0 s2;
  s4 ← expect_char "-" s3;
  '(d, s5) ← read_digits 2 0 s4;
  '(h, mi, sec, us) ←
    match s5 with
    | EmptyString | String _ EmptyString => Some (0, 0, 0, 0)
    | String _ t => parse_time t
    end;
  let dt := Datetime y mo d h mi sec us in
  if datetime_ok dt then Some dt else None.

(** [datetime.fromisoformat(s)] for naive timestamps, with the grammar
    [YYYY-MM-DD[*HH[:MM[:SS[.fff[fff]]]]]] where [*] is any one character;
    anything else, or a field out of range, is a [ValueError]. *)
Definition fromisoformat (s : string) : res datetime :=
  match parse_iso s with
  | Some d => Ret d
  | None => Raise (ValueError ("Invalid isoformat string: '" +:+ s +:+ "'"))
  end.

(** ** Dynamically typed values

    What a caller can pass for [amount] and [currency], and what the
    dictionaries given to [from_dict] can hold.  A [dict] is a finite map
    with string keys. *)

#[warnings="-register-all"]
Inductive value :=
| VNone
| VBool (b : bool)
| VInt (z : Z)
| VFloat (f : float)
| VStr (s : string)
| VDatetime (d : datetime)
| VList (l : list value)
| VDict (d : gmap string value).

Definition type_name (v : value) : string :=
  match v with
  | VNone => "NoneType"
  | VBool _ => "bool"
  | VInt _ => "int"
  | VFloat _ => "float"
  | VStr _ => "str"
  | VDatetime _ => "datetime.datetime"
  | VList _ => "list"
  | VDict _ => "dict"
  end.

(** [isinstance(v, int)]: [bool] is a subclass of [int], and [True], [False]
    are the integers 1 and 0. *)
Definition as_int (v : value) : option Z :=
  match v with
  | VBool b => Some (Z.b2z b)
  | VInt z => Some z
  | _ => None
  end.

(** [isinstance(v, (int, float))], with the number [v] is. *)
Definition as_num (v : value) : option num :=
  match v with
  | VBool b => Some (Int (Z.b2z b))
  | VInt z => Some (Int z)
  | VFloat f => Some (Float f)
  | _ => None
  end.

Definition as_str (v : value) : option string :=
  match v with VStr s => Some s | _ => None end.

Definition as_datetime (v : value) : option datetime :=
  match v with VDatetime d => Some d | _ => None end.

Definition of_num (n : num) : value :=
  match n with Int z => VInt z | Float f => VFloat f end.

(** An ordering comparison [a op b] where one side is a number: the other
    side must be a number too, or Python raises [TypeError]. *)
Definition py_compare (op : string) (test : num → num → bool) (a b : value)
    : res bool :=
  match as_num a, as_num b with
  | Some x, Some y => Ret (test x y)
  | _, _ =>
      Raise (TypeError ("'" +:+ op +:+ "' not supported between instances of '"
                        +:+ type_name a +:+ "' and '" +:+ type_name b +:+ "'"))
  end.

(** [v != s] for a string [s]: only an equal string is equal to it. *)
Definition py_ne_str (v : value) (s : string) : bool :=
  match v with
  | VStr s' => negb (String.eqb s' s)
  | _ => true
  end.

(** [d[k]] on a value: [KeyError] for a missing key, [TypeError] when the
    value is not subscriptable by a string. *)
Definition py_getitem (data : value) (k : string) : res value :=
  match data with
  | VDict d =>
      match d !! k with
      | Some v => Ret v
      | None => Raise (KeyError k)
      end
  | VStr _ => Raise (TypeError "string indices must be integers")
  | VList _ => Raise (TypeError "list indices must be integers or slices, not str")
  | _ => Raise (TypeError ("'" +:+ type_name data +:+ "' object is not subscriptable"))
  end.

(** [s.strip()] is empty: every character is white space. *)
Definition is_space (c : ascii) : bool :=
  let n := nat_of_ascii c in
  ((9 <=? n) && (n <=? 13) || (28 <=? n) && (n <=? 32) || (n =? 133) || (n =? 160))%nat.

Fixpoint blank (s : string) : bool :=
  match s with
  | EmptyString => true
  | String c r => is_space c && blank r
  end.

#[global] Instance res_ret : MRet res := λ A a, Ret a.
#[global] Instance res_mbind : MBind res := λ A B k r, res_bind r k.

(** * models/transaction.py *)

Module Transaction.

(** A constructed [Transaction]: the fields have passed the [isinstance]
    checks of [__init__], so they are kept with their checked types. *)
Record t := Build {
  transaction_id : Z;
  amount : num;
  transaction_type : string;
  time_stamp : datetime;
  currency : string
}.

Definition __init__ (transaction_id amount transaction_type time_stamp currency : value)
    : res t :=
  match as_int transaction_id with
  | None => Raise (TypeError "Transaction id must be an integer")
  | Some i =>
  match as_num amount with
  | None => Raise (TypeError "Amount must be a num")
  | Some a =>
  match as_str transaction_type with
  | None => Raise (TypeError "Transaction type must be an string")
  | Some ty =>
  if blank ty then Raise (ValueError "Transaction type must not be empty") else
  match as_datetime time_stamp with
  | None => Raise (TypeError "Time_stamp must be an datetime")
  | Some ts =>
  match as_str currency with
  | None => Raise (TypeError "Currency must be an string")
  | Some c => Ret (Build i a ty ts c)
  end end end end end.

Definition get_transaction_id (self : t) : Z := transaction_id self.

Definition get_transaction_type (self : t) : string := transaction_type self.

Definition to_dict (self : t) : value :=
  VDict (<["transaction_id" := VInt (transaction_id self)]>
        (<["amount" := of_num (amount self)]>
        (<["transaction_type" := VStr (transaction_type self)]>
        (<["currency" := VStr (currency self)]>
        (<["time_stamp" := VStr (isoformat (time_stamp self))]> ∅))))).

(** [datetime.fromisoformat] applied to a value: only a [str] is parsed. *)
Definition py_fromisoformat (v : value) : res datetime :=
  match v with
  | VStr s => fromisoformat s
  | _ => Raise (TypeError "fromisoformat: argument must be str")
  end.

(** The keyword arguments are evaluated in the order they are written:
    the four subscripts, then the parse of the time stamp. *)
Definition from_dict (data : value) : res t :=
  i ← py_getitem data "transaction_id";
  a ← py_getitem data "amount";
  ty ← py_getitem data "transaction_type";
  c ← py_getitem data "currency";
  s ← py_getitem data "time_stamp";
  ts ← py_fromisoformat s;
  __init__ i a ty (VDatetime ts) c.

End Transaction.

(** * models/account.py *)

Module Bankaccount.

(** An account whose attributes have the types the class annotates
    ([account_id: int], a numeric [balance], [currency: str]); the banking
    operations are modelled on these. *)
Record t := Build {
  account_id : Z;
  balance : num;
  currency : string;
  transactions : list Transaction.t
}.

(** The constructor itself checks nothing: the object it builds holds
    whatever it was given, and an empty transaction list. *)
Record obj := Obj {
  obj_account_id : value;
  obj_balance : value;
  obj_currency : value;
  obj_transactions : list Transaction.t
}.

Definition __init__ (account_id balance currency : value) : obj :=
  Obj account_id balance currency [].

Definition untyped (a : t) : obj :=
  Obj (VInt (account_id a)) (of_num (balance a)) (VStr (currency a)) (transactions a).

Definition typed (o : obj) : option t :=
  i ← as_int (obj_account_id o);
  b ← as_num (obj_balance o);
  c ← as_str (obj_currency o);
  Some (Build i b c (obj_transactions o)).

(** ** The store

    Accounts are mutable objects handled by reference: [transfer] is given
    two references, which may be the same object.  A method call reads and
    writes the store and ends with a value or with a raised exception;
    what was written before an exception stays written. *)

Definition loc := nat.
Abbreviation heap := (gmap loc t).

Definition M (A : Type) : Type := heap → res A * heap.

#[global] Instance M_ret : MRet M := λ A a h, (Ret a, h).
#[global] Instance M_bind : MBind M := λ A B k m h,
  match m h with
  | (Ret a, h') => k a h'
  | (Raise e, h') => (Raise e, h')
  end.

Definition raise {A} (e : exn) : M A := λ h, (Raise e, h).

Definition lift {A} (r : res A) : M A := λ h, (r, h).

(** Reading the object behind a reference.  A Python reference always
    leads to an object; a location outside the store is reported as the
    [AttributeError] of an object that is no account. *)
Definition load (l : loc) : M t := λ h,
  match h !! l with
  | Some a => (Ret a, h)
  | None => (Raise (AttributeError "object is not a Bankaccount"), h)
  end.

Definition with_balance (b : num) (a : t) : t :=
  Build (account_id a) b (currency a) (transactions a).

Definition with_transaction (tx : Transaction.t) (a : t) : t :=
  Build (account_id a) (balance a) (currency a) (transactions a ++ [tx]).

(** [obj.balance = b] *)
Definition set_balance (l : loc) (b : num) : M unit := λ h,
  (Ret (), alter (with_balance b) l h).

(** [obj.transactions.append(tx)] *)
Definition append_transaction (l : loc) (tx : Transaction.t) : M unit := λ h,
  (Ret (), alter (with_transaction tx) l h).

(** [try: body except Exception as e: return handler(e)] *)
Definition try_except {A} (body : M A) (catches : exn → bool) (handler : exn → M A)
    : M A := λ h,
  match body h with
  | (Ret a, h') => (Ret a, h')
  | (Raise e, h') => if catches e then handler e h' else (Raise e, h')
  end.

Definition get_account_id (self : loc) : M Z := a ← load self; mret (account_id a).

Definition get_balance (self : loc) : M num := a ← load self; mret (balance a).

Definition get_transactions (self : loc) : M (list Transaction.t) :=
  a ← load self; mret (transactions a).

(** [len(obj.transactions) + 1] *)
Definition next_transaction_id (l : loc) : M Z :=
  a ← load l; mret (Z.of_nat (length (transactions a)) + 1).

Definition deposit (self : loc) (amount currency : value) (now : datetime) : M string :=
  try_except
    (match as_num amount with
     | None => raise (ValueError "Amount must be of type int or float")
     | Some n =>
         if num_ltb n (Int 0) then raise (ValueError "Amount cannot be negative") else
         a ← load self;
         if py_ne_str currency (Bankaccount.currency a)
         then raise (ValueError "Currency mismatch") else
         b ← lift (num_add (balance a) n);
         set_balance self b;;
         i ← next_transaction_id self;
         transaction ← lift (Transaction.__init__ (VInt i) amount (VStr "deposit")
                                                  (VDatetime now) currency);
         append_transaction self transaction;;
         mret "Deposit successful"
     end)
    (λ _, true)
    (λ e, mret ("Deposit error: " +:+ exn_str e)).

Definition withdraw (self : loc) (amount currency : value) (now : datetime) : M string :=
  try_except
    (match as_num amount with
     | None => raise (ValueError "Value must be a number")
     | Some n =>
         if num_ltb n (Int 0) then raise (ValueError "Amount cannot be negative") else
         a ← load self;
         if py_ne_str currency (Bankaccount.currency a)
         then raise (ValueError "Currency cannot be changed") else
         if num_gtb n (balance a)
         then raise (ValueError "Amount cannot be greater than balance") else
         b ← lift (num_sub (balance a) n);
         set_balance self b;;
         i ← next_transaction_id self;
         withdraw_transaction ← lift (Transaction.__init__ (VInt i) amount (VStr "withdraw")
                                                           (VDatetime now) currency);
         append_transaction self withdraw_transaction;;
         mret "Withdrawal was successful"
     end)
    (λ _, true)
    (λ e, mret ("Withdrawal error:" +:+ exn_str e)).

(** The rates are float expressions, evaluated as Python evaluates them. *)
Definition rate_USD_UAN : float := float_of_ratio 395 10.
Definition rate_USD_EUR : float := float_of_ratio 92 100.
Definition one_over (x : float) : float := float_div (float_of_Z 1) x.

Definition exchange_rates : gmap (string * string) float :=
  list_to_map [
    (("USD", "UAN"), rate_USD_UAN);
    (("UAN", "USD"), one_over rate_USD_UAN);
    (("USD", "EUR"), rate_USD_EUR);
    (("EUR", "USD"), one_over rate_USD_EUR);
    (("UAN", "EUR"), float_mul (one_over rate_USD_UAN) rate_USD_EUR);
    (("EUR", "UAN"), float_mul (one_over rate_USD_EUR) rate_USD_UAN)
  ].

Definition get_exchange_rate (from_currency to_currency : string) : option float :=
  if String.eqb from_currency to_currency then Some (float_of_Z 1)
  else exchange_rates !! (from_currency, to_currency).

(** The message of a completed transfer,
    [f"Transfer completed. {amount} {self.currency} → {formated_amount} {target_account.currency}"],
    kept as the four things it prints; a failed one is its text. *)
Inductive transfer_message :=
| TransferCompleted (amount : num) (from_currency : string)
                    (formated_amount : num) (to_currency : string)
| TransferError (text : string).

(** [int(x) if x.is_integer() else x] *)
Definition format_amount (x : num) : num :=
  match x with
  | Int z => Int z
  | Float f => match float_integral f with Some z => Int z | None => Float f end
  end.

Definition transfer (self target_account : loc) (amount currency : value)
    (now1 now2 : datetime) : M transfer_message :=
  try_except
    (match as_num amount with
     | None =>
         raise (TypeError ("'<=' not supported between instances of '"
                           +:+ type_name amount +:+ "' and 'int'"))
     | Some n =>
         if num_leb n (Int 0)
         then raise (ValueError "The transfer amount must be greater than 0..") else
         a ← load self;
         if py_ne_str currency (Bankaccount.currency a)
         then raise (ValueError "The amount must be in your account currency..") else
         if num_gtb n (balance a)
         then raise (ValueError "Insufficient funds for transfer.") else
         t ← load target_account;
         match get_exchange_rate (Bankaccount.currency a) (Bankaccount.currency t) with
         | None => raise (ValueError "Unable to transfer: no exchange rate available.")
         | Some exchange_rate =>
             product ← lift (num_mul n (Float exchange_rate));
             let converted_amount := num_round2 product in
             b ← lift (num_sub (balance a) n);
             set_balance self b;;
             i ← next_transaction_id self;
             tid ← get_account_id target_account;
             tx_out ← lift (Transaction.__init__ (VInt i) amount
                              (VStr ("transfer_to_" +:+ pretty tid))
                              (VDatetime now1) (VStr (Bankaccount.currency a)));
             append_transaction self tx_out;;
             t' ← load target_account;
             b' ← lift (num_add (balance t') converted_amount);
             set_balance target_account b';;
             j ← next_transaction_id target_account;
             sid ← get_account_id self;
             tx_in ← lift (Transaction.__init__ (VInt j) (of_num converted_amount)
                             (VStr ("transfer_from_" +:+ pretty sid))
                             (VDatetime now2) (VStr (Bankaccount.currency t)));
             append_transaction target_account tx_in;;
             mret (TransferCompleted n (Bankaccount.currency a)
                                     (format_amount converted_amount)
                                     (Bankaccount.currency t))
         end
     end)
    is_ValueError
    (λ e, mret (TransferError ("Transfer error: " +:+ exn_str e))).

Definition to_dict (self : t) : value :=
  VDict (<["account_id" := VInt (account_id self)]>
        (<["balance" := of_num (balance self)]>
        (<["currency" := VStr (currency self)]>
        (<["transactions" := VList (Transaction.to_dict <$> transactions self)]> ∅)))).

(** [data.get(k, default)] *)
Definition py_get (data : value) (k : string) (otherwise : value) : res value :=
  match data with
  | VDict d => Ret (default otherwise (d !! k))
  | _ => Raise (AttributeError ("'" +:+ type_name data +:+ "' object has no attribute 'get'"))
  end.

(** What a [for] loop goes through: the items of a list, the characters
    of a string, the keys of a dictionary. *)
Fixpoint chars (s : string) : list value :=
  match s with
  | EmptyString => []
  | String c r => VStr (String c EmptyString) :: chars r
  end.

Definition py_iter (v : value) : res (list value) :=
  match v with
  | VList l => Ret l
  | VStr s => Ret (chars s)
  | VDict d => Ret (VStr <$> (map_to_list d).*1)
  | _ => Raise (TypeError ("'" +:+ type_name v +:+ "' object is not iterable"))
  end.

(** The loop of [from_dict]: parse and append, one record at a time. *)
Fixpoint load_transactions (items : list value) (account : obj) : res obj :=
  match items with
  | [] => Ret account
  | tr_data :: rest =>
      transaction ← Transaction.from_dict tr_data;
      load_transactions rest
        (Obj (obj_account_id account) (obj_balance account) (obj_currency account)
             (obj_transactions account ++ [transaction]))
  end.

Definition from_dict_body (data : value) : res obj :=
  i ← py_getitem data "account_id";
  b ← py_getitem data "balance";
  c ← py_getitem data "currency";
  let account := __init__ i b c in
  trs ← py_get data "transactions" (VList []);
  items ← py_iter trs;
  load_transactions items account.

(** [from_dict] returns the account, or [None] after printing a line when
    a [ValueError] or a [KeyError] was caught; any other exception leaves
    the function.  The second component is what was printed. *)
Definition from_dict (data : value) : res (option obj) * list string :=
  match from_dict_body data with
  | Ret account => (Ret (Some account), [])
  | Raise e =>
      if is_ValueError e || is_KeyError e
      then (Ret None, ["Error loading account from dict"])
      else (Raise e, [])
  end.

End Bankaccount.

(** * The ledger

    What the properties below are stated with: replaying a log, and running
    a sequence of operations on a store. *)

Import Bankaccount.

(** The direction of a record, read from its kind: [true] credits the
    account ([deposit], [transfer_from_...]), [false] debits it
    ([withdraw], [transfer_to_...]). *)
Definition credits (kind : string) : option bool :=
  if String.eqb kind "deposit" then Some true
  else if String.eqb kind "withdraw" then Some false
  else if String.prefix "transfer_from_" kind then Some true
  else if String.prefix "transfer_to_" kind then Some false
  else None.

(** Applying one record to a balance, with the arithmetic of the code. *)
Definition apply_transaction (b : num) (tx : Transaction.t) : option num :=
  match credits (Transaction.transaction_type tx) with
  | Some true => res_option (num_add b (Transaction.amount tx))
  | Some false => res_option (num_sub b (Transaction.amount tx))
  | None => None
  end.

(** Replaying a log, oldest record first, from a starting balance. *)
Definition replay (b : num) (log : list Transaction.t) : option num :=
  foldl (λ acc tx, acc ≫= λ b, apply_transaction b tx) (Some b) log.

(** One call of a balance-changing method. *)
Inductive operation :=
| Deposit (self : loc) (amount currency : value) (now : datetime)
| Withdraw (self : loc) (amount currency : value) (now : datetime)
| Transfer (self target : loc) (amount currency : value) (now1 now2 : datetime).

(** The store after the call, whether it returned or raised. *)
Definition perform (o : operation) (h : heap) : heap :=
  match o with
  | Deposit self amount currency now => (deposit self amount currency now h).2
  | Withdraw self amount currency now => (withdraw self amount currency now h).2
  | Transfer self target amount currency now1 now2 =>
      (transfer self target amount currency now1 now2 h).2
  end.

Definition perform_all (os : list operation) (h : heap) : heap :=
  foldl (λ h o, perform o h) h os.

(** A store of accounts just made by the constructor: no records yet. *)
Definition fresh (h : heap) : Prop :=
  map_Forall (λ _ a, transactions a = []) h.

(** What the constructor keeps of a constructed transaction. *)
Definition transaction_ok (tx : Transaction.t) : bool :=
  negb (blank (Transaction.transaction_type tx)) && datetime_ok (Transaction.time_stamp tx).

(** The records the methods append, and the stores a transfer goes through. *)
Definition next_id (a : Bankaccount.t) : Z := Z.of_nat (length (transactions a)) + 1.

Definition deposit_transaction (a : Bankaccount.t) (n : num) (now : datetime)
    : Transaction.t :=
  Transaction.Build (next_id a) n "deposit" now (currency a).

Definition withdraw_transaction (a : Bankaccount.t) (n : num) (now : datetime)
    : Transaction.t :=
  Transaction.Build (next_id a) n "withdraw" now (currency a).

(** The record on the source [a] of a transfer to [t]. *)
Definition transfer_to_transaction (a t : Bankaccount.t) (n : num) (now1 : datetime)
    : Transaction.t :=
  Transaction.Build (next_id a) n ("transfer_to_" +:+ pretty (account_id t)) now1
                    (currency a).

(** The record on the target of a transfer from [a]; [t'] is the target as
    the credit finds it, [t] as the transfer found it. *)
Definition transfer_from_transaction (a t t' : Bankaccount.t) (converted : num)
    (now2 : datetime) : Transaction.t :=
  Transaction.Build (next_id t') converted ("transfer_from_" +:+ pretty (account_id a))
                    now2 (currency t).

(** The source once it is debited and its record appended. *)
Definition debited_source (a t : Bankaccount.t) (b n : num) (now1 : datetime)
    : Bankaccount.t :=
  with_transaction (transfer_to_transaction a t n now1) (with_balance b a).

(** The store at that point. *)
Definition debited (h : heap) (self : loc) (a t : Bankaccount.t) (b n : num)
    (now1 : datetime) : heap :=
  alter (with_transaction (transfer_to_transaction a t n now1)) self
    (alter (with_balance b) self h).

(** The target as the credit finds it: the debited source itself when both
    references are the same object. *)
Definition target_then (self target : loc) (a t : Bankaccount.t) (b n : num)
    (now1 : datetime) : Bankaccount.t :=
  if decide (self = target) then debited_source a t b n now1 else t.

(** The target once it is credited and its record appended. *)
Definition credited_target (a t t' : Bankaccount.t) (b' converted : num)
    (now2 : datetime) : Bankaccount.t :=
  with_transaction (transfer_from_transaction a t t' converted now2) (with_balance b' t').

(** The store after both halves of a transfer. *)
Definition credited (h : heap) (self target : loc) (a t : Bankaccount.t)
    (b b' n converted : num) (now1 now2 : datetime) : heap :=
  alter (with_transaction
           (transfer_from_transaction a t (target_then self target a t b n now1)
                                      converted now2)) target
    (alter (with_balance b') target (debited h self a t b n now1)).

(** [a'] is [a] some calls later: same id and currency, the log of [a]
    followed by new records, all in the account's currency, and a balance
    that is the old balance with these new records applied one by one. *)
Definition continues (a a' : Bankaccount.t) : Prop :=
  account_id a' = account_id a ∧ currency a' = currency a ∧
  ∃ txs, transactions a' = transactions a ++ txs ∧
         replay (balance a) txs = Some (balance a') ∧
         Forall (λ tx, Transaction.currency tx = currency a) txs.

(** ** Sample data for the scenarios *)

Definition noon : datetime := Datetime 2024 5 17 12 0 0 0.
Definition later : datetime := Datetime 2024 5 17 12 0 0 250000.

(** Account 1 holds 500 USD and has no history. *)
Definition account_500_usd : Bankaccount.t := Bankaccount.Build 1 (Int 500) "USD" [].

Definition googol4 : Z := 10 ^ 400.

(** Account 2 holds an integer too large for a float, in USD. *)
Definition account_huge_usd : Bankaccount.t := Bankaccount.Build 2 (Int googol4) "USD" [].

(** A store with both. *)
Definition store_500_huge : heap :=
  <[1%nat := account_500_usd]> {[2%nat := account_huge_usd]}.


(** Account 2 holds nothing, in EUR. *)
Definition account_0_eur : Bankaccount.t := Bankaccount.Build 2 (Int 0) "EUR" [].

Definition store_usd_eur : heap := <[1%nat := account_500_usd]> {[2%nat := account_0_eur]}.

(** A day at the bank: a deposit, a transfer across currencies, a refused
    withdrawal, a transfer that raises, a withdrawal. *)
Definition sample_day : list operation :=
  [ Deposit 1%nat (VInt 100) (VStr "USD") noon;
    Transfer 1%nat 2%nat (VInt 99) (VStr "USD") noon later;
    Withdraw 2%nat (VInt 1000) (VStr "EUR") later;
    Transfer 2%nat 1%nat (VStr "all") (VStr "EUR") later later;
    Withdraw 2%nat (VFloat (float_of_ratio 108 100)) (VStr "EUR") later ].

(** [{"balance": 100, "currency": "USD"}]: the id is missing. *)
Definition export_without_id : value :=
  VDict (<["balance" := VInt 100]> (<["currency" := VStr "USD"]> ∅)).

(** The export of an account with one record whose id is a string. *)
Definition export_with_text_id : value :=
  VDict (<["account_id" := VInt 1]> (<["balance" := VInt 100]>
        (<["currency" := VStr "USD"]>
        (<["transactions" :=
             VList [VDict (<["transaction_id" := VStr "7"]>
                          (<["amount" := VInt 100]>
                          (<["transaction_type" := VStr "deposit"]>
                          (<["currency" := VStr "USD"]>
                          (<["time_stamp" := VStr "2024-05-17T12:00:00"]> ∅)))))]]> ∅)))).

(** Account 1 after a deposit of 100 at noon. *)
Definition account_600_usd : Bankaccount.t :=
  Bankaccount.Build 1 (Int 600) "USD" [Transaction.Build 1 (Int 100) "deposit" noon "USD"].

(** ** More vocabulary for the ledger *)

(** [a'] is [a] after one balance update and the record that goes with it:
    the record takes the next id of the log and is in the account's
    currency. *)
Definition appended (a a' : Bankaccount.t) : Prop :=
  ∃ n kind now b,
    a' = with_transaction (Transaction.Build (next_id a) n kind now (currency a))
                          (with_balance b a).

(** The records of a log are numbered 1, 2, 3, ... in the order of the log. *)
Definition numbered (log : list Transaction.t) : Prop :=
  ∀ (i : nat) tx, log !! i = Some tx → Transaction.transaction_id tx = Z.of_nat i + 1.

(** The accounts a call is given. *)
Definition involves (o : operation) (l : loc) : Prop :=
  match o with
  | Deposit self _ _ _ | Withdraw self _ _ _ => l = self
  | Transfer self target _ _ _ _ => l = self ∨ l = target
  end.

(** The keys [Transaction.from_dict] reads, in the order it reads them. *)
Definition transaction_keys : list string :=
  ["transaction_id"; "amount"; "transaction_type"; "currency"; "time_stamp"].

(** The three currencies of the rate table. *)
Definition known_currencies : list string := ["USD"; "UAN"; "EUR"].

Definition float_is_finite (f : float) : bool :=
  match f with S754_finite _ _ _ | S754_zero _ => true | _ => false end.

(** An export whose first record is an empty dictionary. *)
Definition fields_with_empty_record : gmap string value :=
  <["account_id" := VInt 1]> (<["balance" := VInt 100]>
  (<["currency" := VStr "USD"]>
  (<["transactions" := VList [VDict ∅; VNone]]> ∅))).

(** An export without records, whose three values have unexpected types. *)
Definition fields_of_odd_types : gmap string value :=
  <["account_id" := VStr "x"]> (<["balance" := VNone]> (<["currency" := VInt 3]> ∅)).

(** * models/user.py *)

(** [z == v] for an integer [z]: only a number can be equal to it, and the
    comparison with a float is exact. *)
Definition py_eq_int (z : Z) (v : value) : bool :=
  match as_num v with
  | Some n => num_eqb (Int z) n
  | None => false
  end.

Module User.

(** A user whose attributes have the annotated types.  The methods below
    only read the accounts, so the user is given with the state its
    accounts are in. *)
Record t := Build {
  user_id : Z;
  username : string;
  surname : string;
  accounts : list Bankaccount.t
}.

(** What the constructor builds from unchecked arguments. *)
Record obj := Obj {
  obj_username : value;
  obj_surname : value;
  obj_user_id : value;
  obj_accounts : list Bankaccount.obj
}.

Definition __init__ (username surname user_id : value) : obj :=
  Obj username surname user_id [].

Definition untyped (u : t) : obj :=
  Obj (VStr (username u)) (VStr (surname u)) (VInt (user_id u))
      (Bankaccount.untyped <$> accounts u).

Definition get_user_id (self : t) : Z := user_id self.

Definition add_account (self : t) (account : Bankaccount.t) : t :=
  Build (user_id self) (username self) (surname self) (accounts self ++ [account]).

Definition get_account (self : t) : list Bankaccount.t := accounts self.

(** The loop of [get_account_by_id]: the account found, if any, and the
    accounts for which an [Account verification] line was printed. *)
Fixpoint find_account (accounts : list Bankaccount.t) (account_id : value)
    : option Bankaccount.t * list Bankaccount.t :=
  match accounts with
  | [] => (None, [])
  | account :: rest =>
      if py_eq_int (Bankaccount.account_id account) account_id
      then (Some account, [account])
      else let '(found, printed) := find_account rest account_id in
           (found, account :: printed)
  end.

Definition get_account_by_id (self : t) (account_id : value)
    : option Bankaccount.t * list Bankaccount.t :=
  find_account (accounts self) account_id.

(** One round of the loop of [get_balances_by_currency]. *)
Definition add_balance (balances : gmap string num) (account : Bankaccount.t)
    : res (gmap string num) :=
  let currency := Bankaccount.currency account in
  match balances !! currency with
  | Some sum =>
      sum' ← num_add sum (Bankaccount.balance account);
      Ret (<[currency := sum']> balances)
  | None => Ret (<[currency := Bankaccount.balance account]> balances)
  end.

Definition get_balances_by_currency (self : t) : res (gmap string num) :=
  foldl (λ acc account, balances ← acc; add_balance balances account)
        (Ret ∅) (accounts self).

Definition to_dict (self : t) : value :=
  VDict (<["user_id" := VInt (user_id self)]>
        (<["username" := VStr (username self)]>
        (<["surname" := VStr (surname self)]>
        (<["accounts" := VList (Bankaccount.to_dict <$> accounts self)]> ∅)))).

(** The body of the outer loop of [from_dict]: one account is built from
    its dictionary and its records are attached. *)
Definition load_account (acc_data : value) : res Bankaccount.obj :=
  i ← py_getitem acc_data "account_id";
  b ← py_getitem acc_data "balance";
  c ← py_getitem acc_data "currency";
  let account := Bankaccount.__init__ i b c in
  trs ← py_get acc_data "transactions" (VList []);
  items ← py_iter trs;
  load_transactions items account.

Fixpoint load_accounts (items : list value) (user : obj) : res obj :=
  match items with
  | [] => Ret user
  | acc_data :: rest =>
      account ← load_account acc_data;
      load_accounts rest
        (Obj (obj_username user) (obj_surname user) (obj_user_id user)
             (obj_accounts user ++ [account]))
  end.

(** [from_dict] has no [try]: whatever is raised leaves it. *)
Definition from_dict (data : value) : res obj :=
  username ← py_getitem data "username";
  surname ← py_getitem data "surname";
  user_id ← py_getitem data "user_id";
  let user := __init__ username surname user_id in
  accs ← py_get data "accounts" (VList []);
  items ← py_iter accs;
  load_accounts items user.

End User.

(** * service/user_service.py *)

Module Userservice.

(** [max([u.user_id for u in users], default=0) + 1] *)
Definition new_id (users : list User.t) : Z :=
  match User.user_id <$> users with
  | [] => 0
  | first :: others => foldl Z.max first others
  end + 1.

(** [register] between the load and the save: the list that was loaded
    and the list that is saved. *)
Definition register (users : list User.t) (username surname : string) : list User.t :=
  users ++ [User.Build (new_id users) username surname []].

End Userservice.

(** The balance of an account as an integer, for accounts that hold one. *)
Definition int_balance (a : Bankaccount.t) : Z :=
  match balance a with Int z => z | Float _ => 0 end.

Definition holds_int (a : Bankaccount.t) : Prop := ∃ z, balance a = Int z.

Definition sum_Z (l : list Z) : Z := foldr Z.add 0 l.

(** Alice has a USD account and two EUR accounts. *)
Definition alice : User.t :=
  User.Build 7 "Alice" "Liddell"
    [ account_600_usd; Bankaccount.Build 2 (Int 40) "EUR" [];
      Bankaccount.Build 5 (Int 2) "EUR" [] ].

(** The sum of the integer balances of the accounts of [l] in currency [c]. *)
Definition tally (c : string) (l : list Bankaccount.t) : Z :=
  sum_Z (int_balance <$> filter (λ a, currency a = c) l).

(** The loop of [get_balances_by_currency], from any starting dictionary. *)
Definition balances_loop (l : list Bankaccount.t) (start : res (gmap string num))
    : res (gmap string num) :=
  foldl (λ acc account, balances ← acc; User.add_balance balances account) start l.

(** * Properties *)

(** ** The runtime *)

Lemma py_ne_str_false v s : py_ne_str v s = false → v = VStr s.
Proof.
  destruct v; simpl; try discriminate.
  intros H. apply negb_false_iff, String.eqb_eq in H. by subst.
Qed.

Lemma py_ne_str_same s : py_ne_str (VStr s) s = false.
Proof. simpl. by rewrite String.eqb_refl. Qed.

Lemma int_to_float_raise z e :
  int_to_float z = Raise e → e = OverflowError "int too large to convert to float".
Proof. unfold int_to_float. case (float_is_inf _); congruence. Qed.

Lemma num_arith_raise iop fop a b e :
  num_arith iop fop a b = Raise e →
  e = OverflowError "int too large to convert to float".
Proof.
  destruct a as [x|x], b as [y|y]; simpl; try discriminate.
  - destruct (int_to_float x) eqn:E; simpl; [discriminate|].
    intros [= <-]. eauto using int_to_float_raise.
  - destruct (int_to_float y) eqn:E; simpl; [discriminate|].
    intros [= <-]. eauto using int_to_float_raise.
Qed.

Lemma blank_transfer_to s : blank ("transfer_to_" +:+ s) = false.
Proof. reflexivity. Qed.

Lemma blank_transfer_from s : blank ("transfer_from_" +:+ s) = false.
Proof. reflexivity. Qed.

Lemma as_num_of_num n : as_num (of_num n) = Some n.
Proof. by destruct n. Qed.

(** ** The methods, step by step

    Each method is unfolded once into the store it leaves, under the only
    assumption that its references lead to accounts. *)

(** A constructor call on checked arguments builds the record. *)
Lemma init_checked i amount n kind now c :
  as_num amount = Some n → blank kind = false →
  Transaction.__init__ (VInt i) amount (VStr kind) (VDatetime now) (VStr c)
  = Ret (Transaction.Build i n kind now c).
Proof. intros Hn Hk. unfold Transaction.__init__. simpl. by rewrite Hn, Hk. Qed.

#[local] Arguments Transaction.__init__ : simpl never.

(** Runs the monadic steps of a method body. *)
Ltac run :=
  repeat progress
    (unfold mbind, M_bind, mret, M_ret, load, lift, raise, set_balance,
       append_transaction, next_transaction_id, get_account_id; cbn).

Section Unfolded.
Context (h : heap) (self : loc) (a : t).
Hypothesis Hself : h !! self = Some a.

Lemma deposit_unfold amount cur now :
  deposit self amount cur now h =
  match as_num amount with
  | None => (Ret "Deposit error: Amount must be of type int or float", h)
  | Some n =>
      if num_ltb n (Int 0) then (Ret "Deposit error: Amount cannot be negative", h)
      else if py_ne_str cur (currency a) then (Ret "Deposit error: Currency mismatch", h)
      else match num_add (balance a) n with
           | Raise e => (Ret ("Deposit error: " +:+ exn_str e), h)
           | Ret b =>
               (Ret "Deposit successful",
                alter (with_transaction (deposit_transaction a n now))
                      self (alter (with_balance b) self h))
           end
  end.
Proof.
  unfold deposit, try_except.
  destruct (as_num amount) as [n|] eqn:Hn; [|done].
  destruct (num_ltb n (Int 0)); [done|].
  run. rewrite Hself.
  destruct (py_ne_str cur (currency a)) eqn:Hc; [done|].
  apply py_ne_str_false in Hc as ->.
  destruct (num_add (balance a) n) as [b|e]; [|done].
  rewrite lookup_alter_eq, Hself. cbn.
  by erewrite init_checked.
Qed.

Lemma withdraw_unfold amount cur now :
  withdraw self amount cur now h =
  match as_num amount with
  | None => (Ret "Withdrawal error:Value must be a number", h)
  | Some n =>
      if num_ltb n (Int 0) then (Ret "Withdrawal error:Amount cannot be negative", h)
      else if py_ne_str cur (currency a)
      then (Ret "Withdrawal error:Currency cannot be changed", h)
      else if num_gtb n (balance a)
      then (Ret "Withdrawal error:Amount cannot be greater than balance", h)
      else match num_sub (balance a) n with
           | Raise e => (Ret ("Withdrawal error:" +:+ exn_str e), h)
           | Ret b =>
               (Ret "Withdrawal was successful",
                alter (with_transaction (withdraw_transaction a n now))
                      self (alter (with_balance b) self h))
           end
  end.
Proof.
  unfold withdraw, try_except.
  destruct (as_num amount) as [n|] eqn:Hn; [|done].
  destruct (num_ltb n (Int 0)); [done|].
  run. rewrite Hself.
  destruct (py_ne_str cur (currency a)) eqn:Hc; [done|].
  apply py_ne_str_false in Hc as ->.
  destruct (num_gtb n (balance a)); [done|].
  destruct (num_sub (balance a) n) as [b|e]; [|done].
  rewrite lookup_alter_eq, Hself. cbn.
  by erewrite init_checked.
Qed.
End Unfolded.

Section UnfoldedTransfer.
Context (h : heap) (self target : loc) (a t : Bankaccount.t).
Hypothesis Hself : h !! self = Some a.
Hypothesis Htarget : h !! target = Some t.

Lemma debited_self b n now1 :
  debited h self a t b n now1 !! self
  = Some (debited_source a t b n now1).
Proof. unfold debited. by rewrite !lookup_alter_eq, Hself. Qed.

Lemma debited_target b n now1 :
  debited h self a t b n now1 !! target = Some (target_then self target a t b n now1).
Proof.
  unfold target_then. case_decide as E.
  - rewrite <- E. apply debited_self.
  - unfold debited. by rewrite !lookup_alter_ne.
Qed.

Lemma target_then_id b n now1 : account_id (target_then self target a t b n now1) = account_id t.
Proof.
  unfold target_then. case_decide as E; [|done].
  cbn. congruence.
Qed.

Lemma transfer_unfold amount cur now1 now2 :
  transfer self target amount cur now1 now2 h =
  match as_num amount with
  | None =>
      (Raise (TypeError ("'<=' not supported between instances of '"
                         +:+ type_name amount +:+ "' and 'int'")), h)
  | Some n =>
      if num_leb n (Int 0)
      then (Ret (TransferError
                   "Transfer error: The transfer amount must be greater than 0.."), h)
      else if py_ne_str cur (currency a)
      then (Ret (TransferError
                   "Transfer error: The amount must be in your account currency.."), h)
      else if num_gtb n (balance a)
      then (Ret (TransferError "Transfer error: Insufficient funds for transfer."), h)
      else match get_exchange_rate (currency a) (currency t) with
      | None =>
          (Ret (TransferError
                  "Transfer error: Unable to transfer: no exchange rate available."), h)
      | Some exchange_rate =>
          match num_mul n (Float exchange_rate) with
          | Raise e => (Raise e, h)
          | Ret product =>
              let converted := num_round2 product in
              match num_sub (balance a) n with
              | Raise e => (Raise e, h)
              | Ret b =>
                  match num_add (balance (target_then self target a t b n now1)) converted with
                  | Raise e => (Raise e, debited h self a t b n now1)
                  | Ret b' =>
                      (Ret (TransferCompleted n (currency a) (format_amount converted)
                                              (currency t)),
                       credited h self target a t b b' n converted now1 now2)
                  end
              end
          end
      end
  end.
Proof.
  unfold transfer, try_except.
  destruct (as_num amount) as [n|] eqn:Hn; [|done].
  destruct (num_leb n (Int 0)); [done|].
  run. rewrite Hself.
  destruct (py_ne_str cur (currency a)) eqn:Hc; [done|].
  destruct (num_gtb n (balance a)); [done|].
  run. rewrite Htarget.
  destruct (get_exchange_rate (currency a) (currency t)) as [r|]; [|done].
  run.
  destruct (num_mul n (Float r)) as [p|e] eqn:Hp;
    [|by rewrite (num_arith_raise _ _ _ _ _ Hp)].
  destruct (num_sub (balance a) n) as [b|e] eqn:Hb;
    [|by rewrite (num_arith_raise _ _ _ _ _ Hb)].
  rewrite lookup_alter_eq, Hself. cbn.
  assert (alter (with_balance b) self h !! target
          = Some (if decide (self = target) then with_balance b a else t)) as ->.
  { case_decide as E; [rewrite <- E; by rewrite lookup_alter_eq, Hself|].
    by rewrite lookup_alter_ne. }
  cbn.
  assert (account_id (if decide (self = target) then with_balance b a else t)
          = account_id t) as ->.
  { case_decide as E; [|done]. cbn. congruence. }
  erewrite init_checked by (done || apply blank_transfer_to). cbn.
  change (Z.of_nat (length (transactions a)) + 1) with (next_id a).
  fold (transfer_to_transaction a t n now1). fold (debited h self a t b n now1).
  rewrite debited_target. cbn.
  destruct (num_add (balance (target_then self target a t b n now1)) (num_round2 p)) as [b'|e] eqn:Hb';
    [|by rewrite (num_arith_raise _ _ _ _ _ Hb')].
  rewrite lookup_alter_eq, debited_target. cbn.
  assert (alter (with_balance b') target (debited h self a t b n now1) !! self
          = Some (if decide (self = target)
                  then with_balance b' (target_then self target a t b n now1)
                  else debited_source a t b n now1)) as ->.
  { unfold target_then. case_decide as E.
    - rewrite <- E. by rewrite lookup_alter_eq, debited_self.
    - by rewrite lookup_alter_ne, debited_self. }
  cbn.
  assert (account_id (if decide (self = target)
                      then with_balance b' (target_then self target a t b n now1)
                      else debited_source a t b n now1) = account_id a) as ->.
  { case_decide as E; [|done]. cbn. rewrite target_then_id. congruence. }
  erewrite init_checked by (apply as_num_of_num || apply blank_transfer_from).
  done.
Qed.
End UnfoldedTransfer.

(** ** Stores *)

Lemma alter_as_insert (f : Bankaccount.t → Bankaccount.t) (h : heap) l a :
  h !! l = Some a → alter f l h = <[l := f a]> h.
Proof.
  intros Hl. apply map_eq. intros k. destruct (decide (l = k)) as [<-|Hk].
  - by rewrite lookup_alter_eq, lookup_insert_eq, Hl.
  - by rewrite lookup_alter_ne, lookup_insert_ne.
Qed.

Lemma alter_twice_as_insert (f g : Bankaccount.t → Bankaccount.t) (h : heap) l a :
  h !! l = Some a → alter f l (alter g l h) = <[l := f (g a)]> h.
Proof.
  intros Hl. rewrite (alter_as_insert f _ l (g a)).
  - rewrite (alter_as_insert g h l a Hl). apply insert_insert_eq.
  - by rewrite lookup_alter_eq, Hl.
Qed.

(** ** Comparisons *)

Lemma num_geb_not_ltb a b : num_geb a b = true → num_ltb a b = false.
Proof. unfold num_geb, num_ltb. by destruct (num_compare a b) as [[]|]. Qed.

Lemma num_leb_false_gtb a b :
  num_leb a b = false → num_compare a b = Some Gt ∨ num_compare a b = None.
Proof. unfold num_leb. destruct (num_compare a b) as [[]|]; auto; discriminate. Qed.

(** ** C7: the exchange rates *)

Lemma get_exchange_rate_same c : get_exchange_rate c c = Some (float_of_Z 1).
Proof. unfold get_exchange_rate. by rewrite String.eqb_refl. Qed.

(** C7.  [get_exchange_rate(c, c)] is [1.0] for every currency string [c],
    in the table or not.  For two different currencies the answer is the
    entry of a table that holds exactly six directed pairs: USD to UAN at
    39.5 and USD to EUR at 0.92, the two reverse directions as the
    reciprocals [1 / 39.5] and [1 / 0.92], and UAN to EUR and back as the
    products through USD.  So USD to UAN is 39.5 and USD to GBP is not
    found. *)
Theorem get_exchange_rate_table :
  (∀ c, get_exchange_rate c c = Some (float_of_Z 1)) ∧
  (∀ c1 c2, c1 ≠ c2 → get_exchange_rate c1 c2 = exchange_rates !! (c1, c2)) ∧
  map_to_list exchange_rates ≡ₚ
    [ (("USD", "UAN"), float_of_ratio 395 10);
      (("UAN", "USD"), float_div (float_of_Z 1) (float_of_ratio 395 10));
      (("USD", "EUR"), float_of_ratio 92 100);
      (("EUR", "USD"), float_div (float_of_Z 1) (float_of_ratio 92 100));
      (("UAN", "EUR"), float_mul (float_div (float_of_Z 1) (float_of_ratio 395 10))
                                 (float_of_ratio 92 100));
      (("EUR", "UAN"), float_mul (float_div (float_of_Z 1) (float_of_ratio 92 100))
                                 (float_of_ratio 395 10)) ] ∧
  get_exchange_rate "USD" "UAN" = Some (float_of_ratio 395 10) ∧
  get_exchange_rate "USD" "GBP" = None.
Proof.
  split_and!.
  - apply get_exchange_rate_same.
  - intros c1 c2 Hne. unfold get_exchange_rate.
    apply String.eqb_neq in Hne. by rewrite Hne.
  - unfold exchange_rates. apply map_to_list_to_map.
    apply (bool_decide_unpack _). by vm_compute.
  - by vm_compute.
  - by vm_compute.
Qed.

(** ** C4: the order of the checks of [withdraw] *)









(** ** C5: deposits *)

(** A deposit that passes every check and still does not go through: the
    balance is the float 0.5 and the amount the integer 10 ** 400, which is
    not below zero and in the account's currency.  Their sum needs the
    integer as a float, the conversion overflows, and [deposit] returns the
    error it caught; nothing is changed. *)
Lemma deposit_valid_but_rejected :
  let a := Bankaccount.Build 1 (Float (float_of_ratio 1 2)) "USD" [] in
  as_num (VInt googol4) = Some (Int googol4) ∧
  num_geb (Int googol4) (Int 0) = true ∧
  py_ne_str (VStr "USD") (currency a) = false ∧
  deposit 1%nat (VInt googol4) (VStr "USD") noon {[1%nat := a]}
  = (Ret "Deposit error: int too large to convert to float", {[1%nat := a]}).
Proof. by vm_compute. Qed.

(** C5, amended.  For every valid deposit (a numeric amount not below 0, in
    the account's own currency) whose sum with the old balance can be
    computed, [deposit] succeeds: the new balance is the old balance plus
    the amount, and the log grows by exactly one record, of kind [deposit],
    with the deposited amount and currency and with the previous length of
    the log plus 1 as its id.  (The sum cannot be computed only when it
    mixes a float with an integer too large to be converted to a float.) *)
Theorem deposit_valid (h : heap) self a amount n cur now b :
  h !! self = Some a →
  as_num amount = Some n →
  num_geb n (Int 0) = true →
  cur = VStr (currency a) →
  num_add (balance a) n = Ret b →
  deposit self amount cur now h
  = (Ret "Deposit successful",
     <[self := Bankaccount.Build (account_id a) b (currency a)
                 (transactions a ++
                  [Transaction.Build (Z.of_nat (length (transactions a)) + 1) n
                                     "deposit" now (currency a)])]> h).
Proof.
  intros Hself Hn Hge -> Hb.
  rewrite (deposit_unfold h self a Hself), Hn, (num_geb_not_ltb _ _ Hge).
  rewrite py_ne_str_same, Hb.
  by rewrite (alter_twice_as_insert _ _ h self a Hself).
Qed.

Lemma deposit_valid_witness :
  deposit 1%nat (VInt 100) (VStr "USD") noon {[1%nat := account_500_usd]}
  = (Ret "Deposit successful",
     <[1%nat := Bankaccount.Build 1 (Int 600) "USD"
                  [Transaction.Build 1 (Int 100) "deposit" noon "USD"]]>
       {[1%nat := account_500_usd]}).
Proof.
  exact (deposit_valid {[1%nat := account_500_usd]} 1%nat account_500_usd
           (VInt 100) (Int 100) (VStr "USD") noon (Int 600)
           eq_refl eq_refl eq_refl eq_refl eq_refl).
Defined.

(** ** The three ways a transfer can end *)

Section TransferCases.
Context (h : heap) (self target : loc) (a t : Bankaccount.t).
Hypothesis Hself : h !! self = Some a.
Hypothesis Htarget : h !! target = Some t.

Lemma debited_as_insert b n now1 :
  debited h self a t b n now1 = <[self := debited_source a t b n now1]> h.
Proof. unfold debited. by rewrite (alter_twice_as_insert _ _ h self a Hself). Qed.

Lemma credited_as_insert b b' n converted now1 now2 :
  credited h self target a t b b' n converted now1 now2
  = <[target := credited_target a t (target_then self target a t b n now1)
                                b' converted now2]>
      (<[self := debited_source a t b n now1]> h).
Proof.
  unfold credited.
  rewrite (alter_twice_as_insert _ _ _ target _
             (debited_target h self target a t Hself Htarget b n now1)).
  by rewrite debited_as_insert.
Qed.

(** Either a check fails before anything is written, or the source is
    debited; then the credit either goes through or overflows. *)
Lemma transfer_cases amount cur now1 now2 :
  let out := transfer self target amount cur now1 now2 h in
  (out.2 = h ∧ ∀ n c1 fa c2, out.1 ≠ Ret (TransferCompleted n c1 fa c2)) ∨
  (∃ n rate product b,
     as_num amount = Some n ∧ num_leb n (Int 0) = false ∧
     cur = VStr (currency a) ∧ num_gtb n (balance a) = false ∧
     get_exchange_rate (currency a) (currency t) = Some rate ∧
     num_mul n (Float rate) = Ret product ∧
     num_sub (balance a) n = Ret b ∧
     let converted := num_round2 product in
     let t0 := target_then self target a t b n now1 in
     ((∃ b', num_add (balance t0) converted = Ret b' ∧
             out = (Ret (TransferCompleted n (currency a) (format_amount converted)
                                           (currency t)),
                    credited h self target a t b b' n converted now1 now2)) ∨
      (∃ e, num_add (balance t0) converted = Raise e ∧
            out = (Raise e, debited h self a t b n now1)))).
Proof.
  cbn zeta. rewrite (transfer_unfold h self target a t Hself Htarget).
  destruct (as_num amount) as [n|] eqn:Hn; [|by left].
  destruct (num_leb n (Int 0)) eqn:Hpos; [by left|].
  destruct (py_ne_str cur (currency a)) eqn:Hc; [by left|].
  apply py_ne_str_false in Hc.
  destruct (num_gtb n (balance a)) eqn:Hbal; [by left|].
  destruct (get_exchange_rate (currency a) (currency t)) as [rate|] eqn:Hr; [|by left].
  destruct (num_mul n (Float rate)) as [p|e] eqn:Hp; [|by left].
  destruct (num_sub (balance a) n) as [b|e] eqn:Hb; [|by left].
  right. exists n, rate, p, b. split_and!; try done. cbn zeta.
  destruct (num_add _ (num_round2 p)) as [b'|e] eqn:Hb'.
  - left. by exists b'.
  - right. by exists e.
Qed.
End TransferCases.

(** ** C1: is a transfer all or nothing? *)

(** C1.  A transfer that is done on one side only.  Account 1 (500 USD)
    sends 1 USD to account 2, whose balance is the integer 10 ** 400.  The
    source is debited and gets its record; the credit must add the float
    1.0 to the target's integer, the conversion overflows, and the
    [OverflowError] is not a [ValueError]: it leaves [transfer] instead of
    being returned as a message.  The source has changed and the target
    has not: one side without the other.  [transfer] has no way back once
    the source is debited, and unlike [deposit] and [withdraw], which
    catch every exception, it does not keep its promise to return a
    message. *)
Lemma transfer_debits_source_only :
  ∃ h', transfer 1%nat 2%nat (VInt 1) (VStr "USD") noon later store_500_huge
        = (Raise (OverflowError "int too large to convert to float"), h') ∧
        h' !! 1%nat = Some (Bankaccount.Build 1 (Int 499) "USD"
                              [Transaction.Build 1 (Int 1) "transfer_to_2" noon "USD"]) ∧
        h' !! 2%nat = Some account_huge_usd.
Proof. eexists. split_and!; by vm_compute. Qed.

(** The ways a call to [transfer] can end.  Neither account has changed.
    Or both have: the source's balance is debited by the amount and its
    log ends with the [transfer_to_<target id>] record, the target's
    balance is credited with the converted amount
    [round(amount * rate, 2)] and its log ends with the
    [transfer_from_<source id>] record.  Or the source alone has, and that
    only when adding the converted amount to the target's balance raised
    [OverflowError], which [transfer] lets through. *)
Theorem transfer_both_or_neither_or_overflow (h : heap) self target a t amount cur
    now1 now2 out h' :
  h !! self = Some a → h !! target = Some t →
  transfer self target amount cur now1 now2 h = (out, h') →
  h' = h ∨
  ∃ n rate product b,
    as_num amount = Some n ∧
    get_exchange_rate (currency a) (currency t) = Some rate ∧
    num_mul n (Float rate) = Ret product ∧
    num_sub (balance a) n = Ret b ∧
    let converted := num_round2 product in
    let a' := debited_source a t b n now1 in
    let t0 := if decide (self = target) then a' else t in
    ((∃ b', num_add (balance t0) converted = Ret b' ∧
            out = Ret (TransferCompleted n (currency a) (format_amount converted)
                                         (currency t)) ∧
            h' = <[target := credited_target a t t0 b' converted now2]>
                   (<[self := a']> h)) ∨
     (num_add (balance t0) converted
        = Raise (OverflowError "int too large to convert to float") ∧
      out = Raise (OverflowError "int too large to convert to float") ∧
      h' = <[self := a']> h)).
Proof.
  intros Hself Htarget Hrun.
  destruct (transfer_cases h self target a t Hself Htarget amount cur now1 now2)
    as [[Hsame _]|(n & rate & p & b & Hn & _ & _ & _ & Hr & Hp & Hb & Hcredit)].
  { left. by rewrite Hrun in Hsame. }
  right. exists n, rate, p, b. split_and!; try done. cbn zeta in *.
  rewrite Hrun in Hcredit.
  destruct Hcredit as [(b' & Hb' & [= -> ->])|(e & He & [= -> ->])].
  - left. exists b'. split_and!; try done.
    by rewrite (credited_as_insert h self target a t Hself Htarget).
  - right. pose proof (num_arith_raise _ _ _ _ _ He) as ->.
    split_and!; try done. apply (debited_as_insert h self a t Hself).
Qed.

Lemma transfer_both_or_neither_or_overflow_witness :
  ∃ out h', transfer 1%nat 2%nat (VInt 1000) (VStr "USD") noon later store_500_huge
            = (out, h') ∧ h' = store_500_huge.
Proof.
  eexists _, _. split; [reflexivity|].
  destruct (transfer_both_or_neither_or_overflow store_500_huge 1%nat 2%nat
              account_500_usd account_huge_usd (VInt 1000) (VStr "USD") noon later
              _ _ eq_refl eq_refl eq_refl) as [Hsame|Hcases].
  - exact Hsame.
  - reflexivity.
Defined.

(** ** C3: do the operations ever raise? *)

Lemma try_except_all_returns {A} (body : M A) (handler : exn → M A) (h : heap) :
  (∀ e h1, ∃ x h2, handler e h1 = (Ret x, h2)) →
  ∃ x h', try_except body (λ _, true) handler h = (Ret x, h').
Proof.
  intros Hhandler. unfold try_except.
  destruct (body h) as [[x|e] h1]; [by eexists _, _|]. apply Hhandler.
Qed.

(** C3.  [deposit] and [withdraw] end with a returned message on every
    input: whatever is raised inside them is caught.  [transfer] does not:
    it catches [ValueError] only, and an amount that is a string (or any
    other value that is not a number) makes its first comparison raise a
    [TypeError] that reaches the caller. *)
Theorem only_transfer_raises :
  (∀ (h : heap) self amount cur now,
     ∃ msg h', deposit self amount cur now h = (Ret msg, h')) ∧
  (∀ (h : heap) self amount cur now,
     ∃ msg h', withdraw self amount cur now h = (Ret msg, h')) ∧
  (∀ (h : heap) self target text cur now1 now2,
     transfer self target (VStr text) cur now1 now2 h
     = (Raise (TypeError "'<=' not supported between instances of 'str' and 'int'"), h)).
Proof.
  split_and!.
  - intros. apply try_except_all_returns. intros e h1. by eexists _, _.
  - intros. apply try_except_all_returns. intros e h1. by eexists _, _.
  - done.
Qed.

(** ** C6: the converted amount *)


Lemma round_half_even_near a d :
  0 < d → 0 ≤ a →
  0 ≤ round_half_even a d ∧ Z.abs (2 * a - 2 * round_half_even a d * d) ≤ d.
Proof.
  intros Hd Ha. unfold round_half_even.
  pose proof (Z.div_mod a d ltac:(lia)) as Hdiv.
  pose proof (Z.mod_pos_bound a d Hd) as Hmod.
  pose proof (Z.div_pos a d Ha Hd) as Hq.
  set (q := a / d) in *. set (r := a mod d) in *.
  destruct (Z.compare_spec (2 * r) d); [destruct (Z.even q)| |]; split; nia.
Qed.

(** [round(x, 2)] of a finite float [x = ± m * 2 ^ e] is the float nearest
    to [± n / 100], for an integer [n] at most one half away from
    [100 * |x|]. *)
Lemma float_round2_nearest s m e :
  ∃ n, 0 ≤ n ∧
       (if 0 <=? e then n = 100 * Zpos m * 2 ^ e
        else Z.abs (2 * (100 * Zpos m) - 2 * n * 2 ^ (- e)) ≤ 2 ^ (- e)) ∧
       float_round2 (S754_finite s m e)
       = if n =? 0 then S754_zero s else float_of_ratio (if s then - n else n) 100.
Proof.
  unfold float_round2. destruct (0 <=? e) eqn:He.
  - apply Z.leb_le in He. exists (100 * Zpos m * 2 ^ e). split_and!; [nia|done|].
    assert (0 < 100 * Zpos m * 2 ^ e) by nia.
    destruct (100 * Zpos m * 2 ^ e) as [|p|p] eqn:E; [lia| |lia]. by destruct s.
  - apply Z.leb_gt in He.
    assert (0 < 2 ^ (- e)) by (apply Z.pow_pos_nonneg; lia).
    destruct (round_half_even_near (100 * Zpos m) (2 ^ (- e))) as [Hn Hnear]; [lia..|].
    exists (round_half_even (100 * Zpos m) (2 ^ (- e))). split_and!; [done|done|].
    destruct (round_half_even _ _) as [|p|p]; [done| |lia]. by destruct s.
Qed.

(** C6.  A completed transfer has credited the target with
    [converted = round(amount * rate, 2)]: the target's balance is what it
    was when the credit was made plus [converted], and its log ends with
    the [transfer_from_<source id>] record of that amount.  The rounding is
    at two decimal places: for a finite product [± m * 2 ^ e], [converted]
    is the float nearest to [± n / 100] where the integer [n] is at most
    one half away from a hundred times the product.  With account A
    (balance 500, USD) sending 99 USD to account B (balance 0, EUR), A is
    left with 401 and a last record [transfer_to_<B.id>] of 99, and B with
    91.08, which is [round(99 * 0.92, 2)], and a last record
    [transfer_from_<A.id>] of 91.08.  With 0.55 USD instead, the product
    0.506 is not what B gets: B is credited 0.51. *)
Theorem transfer_credits_converted :
  (∀ (h : heap) self target a t amount cur now1 now2 n c1 formatted c2 h',
     h !! self = Some a → h !! target = Some t →
     transfer self target amount cur now1 now2 h
     = (Ret (TransferCompleted n c1 formatted c2), h') →
     ∃ rate product b b',
       as_num amount = Some n ∧
       get_exchange_rate (currency a) (currency t) = Some rate ∧
       num_mul n (Float rate) = Ret product ∧
       num_sub (balance a) n = Ret b ∧
       let converted := num_round2 product in
       let t0 := if decide (self = target) then debited_source a t b n now1 else t in
       num_add (balance t0) converted = Ret b' ∧
       h' !! target
       = Some (Bankaccount.Build (account_id t) b' (currency t)
                 (transactions t0 ++
                  [Transaction.Build (Z.of_nat (length (transactions t0)) + 1) converted
                     ("transfer_from_" +:+ pretty (account_id a)) now2 (currency t)]))) ∧
  (∀ (h : heap) la lb ida idb txa txb now1 now2,
     la ≠ lb →
     h !! la = Some (Bankaccount.Build ida (Int 500) "USD" txa) →
     h !! lb = Some (Bankaccount.Build idb (Int 0) "EUR" txb) →
     ∃ h',
       transfer la lb (VInt 99) (VStr "USD") now1 now2 h
       = (Ret (TransferCompleted (Int 99) "USD" (Float (float_of_ratio 9108 100)) "EUR"),
          h') ∧
       num_round2 (Float (float_mul (float_of_Z 99) (float_of_ratio 92 100)))
       = Float (float_of_ratio 9108 100) ∧
       h' !! la
       = Some (Bankaccount.Build ida (Int 401) "USD"
                 (txa ++ [Transaction.Build (Z.of_nat (length txa) + 1) (Int 99)
                            ("transfer_to_" +:+ pretty idb) now1 "USD"])) ∧
       h' !! lb
       = Some (Bankaccount.Build idb (Float (float_of_ratio 9108 100)) "EUR"
                 (txb ++ [Transaction.Build (Z.of_nat (length txb) + 1)
                            (Float (float_of_ratio 9108 100))
                            ("transfer_from_" +:+ pretty ida) now2 "EUR"]))) ∧
  (∀ s m e,
     ∃ n, 0 ≤ n ∧
          (if 0 <=? e then n = 100 * Zpos m * 2 ^ e
           else Z.abs (2 * (100 * Zpos m) - 2 * n * 2 ^ (- e)) ≤ 2 ^ (- e)) ∧
          num_round2 (Float (S754_finite s m e))
          = Float (if n =? 0 then S754_zero s
                   else float_of_ratio (if s then - n else n) 100)) ∧
  (∀ (h : heap) la lb ida idb txa txb now1 now2,
     la ≠ lb →
     h !! la = Some (Bankaccount.Build ida (Int 500) "USD" txa) →
     h !! lb = Some (Bankaccount.Build idb (Int 0) "EUR" txb) →
     ∃ h',
       transfer la lb (VFloat (float_of_ratio 55 100)) (VStr "USD") now1 now2 h
       = (Ret (TransferCompleted (Float (float_of_ratio 55 100)) "USD"
                                 (Float (float_of_ratio 51 100)) "EUR"), h') ∧
       float_mul (float_of_ratio 55 100) (float_of_ratio 92 100)
       ≠ float_of_ratio 51 100 ∧
       h' !! la
       = Some (Bankaccount.Build ida (Float (float_of_ratio 49945 100)) "USD"
                 (txa ++ [Transaction.Build (Z.of_nat (length txa) + 1)
                            (Float (float_of_ratio 55 100))
                            ("transfer_to_" +:+ pretty idb) now1 "USD"])) ∧
       h' !! lb
       = Some (Bankaccount.Build idb (Float (float_of_ratio 51 100)) "EUR"
                 (txb ++ [Transaction.Build (Z.of_nat (length txb) + 1)
                            (Float (float_of_ratio 51 100))
                            ("transfer_from_" +:+ pretty ida) now2 "EUR"]))).
Proof.
  split; [|split; [|split]].
  - intros h self target a t amount cur now1 now2 n c1 fa c2 h' Hself Htarget Hrun.
    destruct (transfer_cases h self target a t Hself Htarget amount cur now1 now2)
      as [[_ Hno]|(n' & rate & p & b & Hn & _ & _ & _ & Hr & Hp & Hb & Hcredit)].
    { rewrite Hrun in Hno. by destruct (Hno n c1 fa c2). }
    cbn zeta in Hcredit. rewrite Hrun in Hcredit.
    destruct Hcredit as [(b' & Hb' & [= -> -> -> -> ->])|(e & _ & [=])].
    exists rate, p, b, b'. split_and!; try done. cbn zeta.
    rewrite (credited_as_insert h self target a t Hself Htarget), lookup_insert_eq.
    unfold target_then in *. split; [done|].
    unfold credited_target, with_transaction, with_balance, transfer_from_transaction,
      next_id. cbn.
    case_decide as E; [|done]. cbn.
    assert (a = t) as -> by congruence. done.
  - intros h la lb ida idb txa txb now1 now2 Hne Hla Hlb.
    eexists. rewrite (transfer_unfold h la lb _ _ Hla Hlb). cbn.
    change (get_exchange_rate "USD" "EUR") with (Some (float_of_ratio 92 100)).
    unfold target_then. rewrite decide_False by done. cbn.
    change (num_round2 (Float (float_mul (float_of_Z 99) (float_of_ratio 92 100))))
      with (Float (float_of_ratio 9108 100)).
    cbn. split_and!; try done.
    + rewrite (credited_as_insert h la lb _ _ Hla Hlb).
      by rewrite lookup_insert_ne, lookup_insert_eq.
    + rewrite (credited_as_insert h la lb _ _ Hla Hlb), lookup_insert_eq.
      unfold target_then. by rewrite decide_False.
  - intros s m e. destruct (float_round2_nearest s m e) as (n & Hn & Hnear & Hr).
    exists n. split_and!; try done. unfold num_round2. by rewrite Hr.
  - intros h la lb ida idb txa txb now1 now2 Hne Hla Hlb.
    assert (num_leb (Float (float_of_ratio 55 100)) (Int 0) = false) as E1
      by by vm_compute.
    assert (num_gtb (Float (float_of_ratio 55 100)) (Int 500) = false) as E2
      by by vm_compute.
    assert (get_exchange_rate "USD" "EUR" = Some (float_of_ratio 92 100)) as E3
      by by vm_compute.
    assert (num_round2 (Float (float_mul (float_of_ratio 55 100) (float_of_ratio 92 100)))
            = Float (float_of_ratio 51 100)) as E4 by by vm_compute.
    assert (num_sub (Int 500) (Float (float_of_ratio 55 100))
            = Ret (Float (float_of_ratio 49945 100))) as E5 by by vm_compute.
    assert (num_add (Int 0) (Float (float_of_ratio 51 100))
            = Ret (Float (float_of_ratio 51 100))) as E6 by by vm_compute.
    assert (format_amount (Float (float_of_ratio 51 100))
            = Float (float_of_ratio 51 100)) as E7 by by vm_compute.
    eexists. rewrite (transfer_unfold h la lb _ _ Hla Hlb).
    cbn -[float_of_ratio float_mul float_sub float_add float_round2 float_of_Z
          get_exchange_rate num_leb num_gtb num_round2 num_sub num_add num_mul
          format_amount].
    rewrite E1, E2, E3.
    change (num_mul (Float (float_of_ratio 55 100)) (Float (float_of_ratio 92 100)))
      with (Ret (Float (float_mul (float_of_ratio 55 100) (float_of_ratio 92 100)))).
    cbv beta iota zeta. rewrite E5. cbv beta iota. rewrite E4.
    unfold target_then. rewrite decide_False by done.
    cbn [balance]. rewrite E6, E7. cbv beta iota.
    split; [reflexivity|]. split; [by vm_compute|]. split.
    + rewrite (credited_as_insert h la lb _ _ Hla Hlb).
      by rewrite lookup_insert_ne, lookup_insert_eq.
    + rewrite (credited_as_insert h la lb _ _ Hla Hlb), lookup_insert_eq.
      unfold target_then. by rewrite decide_False.
Qed.

Lemma transfer_credits_converted_witness :
  ∃ h',
    transfer 1%nat 2%nat (VInt 99) (VStr "USD") noon later
      (<[1%nat := account_500_usd]> {[2%nat := Bankaccount.Build 2 (Int 0) "EUR" []]})
    = (Ret (TransferCompleted (Int 99) "USD" (Float (float_of_ratio 9108 100)) "EUR"), h') ∧
    h' !! 2%nat
    = Some (Bankaccount.Build 2 (Float (float_of_ratio 9108 100)) "EUR"
              [Transaction.Build 1 (Float (float_of_ratio 9108 100))
                                 "transfer_from_1" later "EUR"]).
Proof.
  destruct (proj1 (proj2 transfer_credits_converted)
              (<[1%nat := account_500_usd]> {[2%nat := Bankaccount.Build 2 (Int 0) "EUR" []]})
              1%nat 2%nat 1 2 [] [] noon later ltac:(discriminate) eq_refl eq_refl)
    as (h' & Hrun & _ & _ & Hb).
  exists h'. split; [exact Hrun | exact Hb].
Defined.

(** ** C10: a transfer from an account to itself *)


Lemma num_leb_not_gtb a b : num_leb a b = true → num_gtb a b = false.
Proof. unfold num_gtb, num_leb. by destruct (num_compare a b) as [[]|]. Qed.




(** ** C2: the balance is the replay of the log *)

Lemma replay_app b l1 l2 :
  replay b (l1 ++ l2) = replay b l1 ≫= λ b', replay b' l2.
Proof.
  unfold replay. rewrite foldl_app.
  destruct (foldl _ (Some b) l1) as [b'|]; [done|].
  cbn. induction l2 as [|tx l2 IH]; [done|]. exact IH.
Qed.

Lemma continues_refl a : continues a a.
Proof.
  split_and!; try done. exists []. split_and!; [by rewrite app_nil_r|done|constructor].
Qed.

Lemma continues_trans a1 a2 a3 : continues a1 a2 → continues a2 a3 → continues a1 a3.
Proof.
  intros (Hid & Hc & l1 & Hl1 & Hr1 & Hf1) (Hid' & Hc' & l2 & Hl2 & Hr2 & Hf2).
  split_and!; [congruence..|].
  exists (l1 ++ l2). split_and!.
  - by rewrite Hl2, Hl1, app_assoc.
  - by rewrite replay_app, Hr1.
  - apply Forall_app. split; [done|]. by rewrite <- Hc.
Qed.

Lemma credits_transfer_to s : credits ("transfer_to_" +:+ s) = Some false.
Proof. by destruct s. Qed.

Lemma credits_transfer_from s : credits ("transfer_from_" +:+ s) = Some true.
Proof. by destruct s. Qed.

Lemma continues_credit a n kind now b :
  credits kind = Some true → num_add (balance a) n = Ret b →
  continues a (with_transaction (Transaction.Build (next_id a) n kind now (currency a))
                                (with_balance b a)).
Proof.
  intros Hk Hb. split_and!; try done. eexists [_]. split_and!; [done| |by repeat constructor].
  unfold replay, apply_transaction. cbn. by rewrite Hk, Hb.
Qed.

Lemma continues_debit a n kind now b :
  credits kind = Some false → num_sub (balance a) n = Ret b →
  continues a (with_transaction (Transaction.Build (next_id a) n kind now (currency a))
                                (with_balance b a)).
Proof.
  intros Hk Hb. split_and!; try done. eexists [_]. split_and!; [done| |by repeat constructor].
  unfold replay, apply_transaction. cbn. by rewrite Hk, Hb.
Qed.

(** A reference that leads nowhere: the call changes nothing. *)
Lemma deposit_dangling (h : heap) self amount cur now :
  h !! self = None → (deposit self amount cur now h).2 = h.
Proof.
  intros Hself. unfold deposit, try_except.
  destruct (as_num amount) as [n|]; [|done].
  destruct (num_ltb n (Int 0)); [done|]. run. by rewrite Hself.
Qed.

Lemma withdraw_dangling (h : heap) self amount cur now :
  h !! self = None → (withdraw self amount cur now h).2 = h.
Proof.
  intros Hself. unfold withdraw, try_except.
  destruct (as_num amount) as [n|]; [|done].
  destruct (num_ltb n (Int 0)); [done|]. run. by rewrite Hself.
Qed.

Lemma transfer_dangling (h : heap) self target amount cur now1 now2 :
  h !! self = None ∨ h !! target = None →
  (transfer self target amount cur now1 now2 h).2 = h.
Proof.
  intros Hd. unfold transfer, try_except.
  destruct (as_num amount) as [n|]; [|done].
  destruct (num_leb n (Int 0)); [done|]. run.
  destruct (h !! self) as [a|] eqn:Hself; [|done]. cbn.
  destruct (py_ne_str cur (currency a)); [done|].
  destruct (num_gtb n (balance a)); [done|]. run.
  destruct Hd as [?|Htarget]; [done|]. by rewrite Htarget.
Qed.

(** One call takes every account of the store to a continuation of it. *)
Lemma perform_continues o (h : heap) l a' :
  perform o h !! l = Some a' → ∃ a, h !! l = Some a ∧ continues a a'.
Proof.
  assert (Hsame : h !! l = Some a' → ∃ a, h !! l = Some a ∧ continues a a')
    by (intros; eauto using continues_refl).
  destruct o as [self amount cur now|self amount cur now
                |self target amount cur now1 now2]; cbn.
  - destruct (h !! self) as [a|] eqn:Hself;
      [|by rewrite deposit_dangling].
    rewrite (deposit_unfold h self a Hself).
    destruct (as_num amount) as [n|]; [|done].
    destruct (num_ltb n (Int 0)); [done|].
    destruct (py_ne_str cur (currency a)); [done|].
    destruct (num_add (balance a) n) as [b|e] eqn:Hb; [|done]. cbn.
    rewrite (alter_twice_as_insert _ _ h self a Hself).
    destruct (decide (self = l)) as [<-|Hne].
    + rewrite lookup_insert_eq. intros [= <-]. eexists. split; [done|].
      by apply continues_credit.
    + by rewrite lookup_insert_ne.
  - destruct (h !! self) as [a|] eqn:Hself;
      [|by rewrite withdraw_dangling].
    rewrite (withdraw_unfold h self a Hself).
    destruct (as_num amount) as [n|]; [|done].
    destruct (num_ltb n (Int 0)); [done|].
    destruct (py_ne_str cur (currency a)); [done|].
    destruct (num_gtb n (balance a)); [done|].
    destruct (num_sub (balance a) n) as [b|e] eqn:Hb; [|done]. cbn.
    rewrite (alter_twice_as_insert _ _ h self a Hself).
    destruct (decide (self = l)) as [<-|Hne].
    + rewrite lookup_insert_eq. intros [= <-]. eexists. split; [done|].
      by apply continues_debit.
    + by rewrite lookup_insert_ne.
  - destruct (h !! self) as [a|] eqn:Hself;
      [|rewrite transfer_dangling by auto; done].
    destruct (h !! target) as [t|] eqn:Htarget;
      [|rewrite transfer_dangling by auto; done].
    destruct (transfer_cases h self target a t Hself Htarget amount cur now1 now2)
      as [[-> _]|(n & rate & p & b & _ & _ & _ & _ & _ & _ & Hb & Hcredit)]; [done|].
    cbn zeta in Hcredit.
    assert (Ha : continues a (debited_source a t b n now1))
      by (apply continues_debit; [apply credits_transfer_to|done]).
    destruct Hcredit as [(b' & Hb' & ->)|(e & _ & ->)]; cbn.
    + rewrite (credited_as_insert h self target a t Hself Htarget).
      destruct (decide (target = l)) as [<-|Hne].
      * rewrite lookup_insert_eq. intros [= <-]. exists t. split; [done|].
        unfold target_then in *. case_decide as E.
        -- assert (a = t) as <- by congruence.
           eapply continues_trans; [exact Ha|].
           apply (continues_credit (debited_source a a b n now1));
             [apply credits_transfer_from|done].
        -- by apply continues_credit; [apply credits_transfer_from|].
      * rewrite lookup_insert_ne by done.
        destruct (decide (self = l)) as [<-|Hne'].
        -- rewrite lookup_insert_eq. intros [= <-]. eauto.
        -- by rewrite lookup_insert_ne.
    + rewrite (debited_as_insert h self a t Hself).
      destruct (decide (self = l)) as [<-|Hne'].
      * rewrite lookup_insert_eq. intros [= <-]. eauto.
      * by rewrite lookup_insert_ne.
Qed.

Lemma perform_all_continues os (h : heap) l a' :
  perform_all os h !! l = Some a' → ∃ a, h !! l = Some a ∧ continues a a'.
Proof.
  revert h. induction os as [|o os IH]; intros h; cbn.
  - intros. eauto using continues_refl.
  - intros Hl. destruct (IH _ Hl) as (a1 & H1 & Hc1).
    destruct (perform_continues _ _ _ _ H1) as (a & Ha & Hc).
    eauto using continues_trans.
Qed.



(** ** C8: writing an account out and reading it back *)

(** *** Digits *)

Lemma char_digit_char d : 0 ≤ d < 10 → char_digit (digit_char d) = Some d.
Proof.
  intros Hd.
  assert (d = 0 ∨ d = 1 ∨ d = 2 ∨ d = 3 ∨ d = 4 ∨ d = 5 ∨ d = 6 ∨ d = 7 ∨ d = 8 ∨ d = 9)
    as Hcases by lia.
  repeat (destruct Hcases as [->|Hcases]; [reflexivity|]). by subst.
Qed.

Lemma zero_pad_cons k v rest :
  zero_pad (S k) v +:+ rest
  = String (digit_char (v / 10 ^ Z.of_nat k mod 10)) (zero_pad k v +:+ rest).
Proof. reflexivity. Qed.

Lemma read_zero_pad w v acc rest :
  read_digits w acc (zero_pad w v +:+ rest)
  = Some (acc * 10 ^ Z.of_nat w + v mod 10 ^ Z.of_nat w, rest).
Proof.
  revert acc. induction w as [|k IH]; intros acc.
  - cbn. rewrite Z.mod_1_r. do 2 f_equal. lia.
  - rewrite zero_pad_cons. cbn [read_digits].
    rewrite char_digit_char by (apply Z.mod_pos_bound; lia).
    rewrite IH. do 2 f_equal.
    rewrite Nat2Z.inj_succ, Z.pow_succ_r by lia.
    rewrite (Z.mul_comm 10 (10 ^ Z.of_nat k)).
    rewrite (Z.rem_mul_r v (10 ^ Z.of_nat k) 10) by lia. lia.
Qed.

Lemma read_zero_pad_exact w v rest :
  0 ≤ v < 10 ^ Z.of_nat w →
  read_digits w 0 (zero_pad w v +:+ rest) = Some (v, rest).
Proof. intros Hv. rewrite read_zero_pad, Z.mod_small by done. do 2 f_equal. Qed.

Lemma zero_pad_split w w' v :
  zero_pad (w + w') v = zero_pad w (v / 10 ^ Z.of_nat w') +:+ zero_pad w' v.
Proof.
  induction w as [|k IH]; [done|].
  rewrite zero_pad_cons. cbn [Nat.add zero_pad]. rewrite IH.
  rewrite Nat2Z.inj_add, Z.pow_add_r, Z.div_div by lia.
  by rewrite (Z.mul_comm (10 ^ Z.of_nat w')).
Qed.

Lemma append_empty_r s : s +:+ "" = s.
Proof.
  induction s as [|c s IH]; [done|].
  change (String c s +:+ "") with (String c (s +:+ "")). by rewrite IH.
Qed.

#[local] Arguments zero_pad : simpl never.
#[local] Arguments read_digits : simpl never.

Lemma string_cons_append c s r : String c s +:+ r = String c (s +:+ r).
Proof. reflexivity. Qed.

Lemma parse_fraction_zero_pad us :
  0 ≤ us ≤ 999999 → parse_fraction (zero_pad 6 us) = Some us.
Proof.
  intros Hus. unfold parse_fraction.
  change (zero_pad 6 us) with (zero_pad (3 + 3) us).
  rewrite (zero_pad_split 3 3 us), read_zero_pad.
  assert (zero_pad 3 us = String (digit_char (us / 10 ^ 2 mod 10)) (zero_pad 2 us))
    as Hhead by reflexivity.
  rewrite Hhead. cbn match. rewrite <- Hhead.
  rewrite <- (append_empty_r (zero_pad 3 us)), read_zero_pad.
  f_equal. change (Z.of_nat 3) with 3.
  rewrite (Z.mod_small (us / 10 ^ 3))
    by (split; [apply Z.div_pos|apply Z.div_lt_upper_bound]; lia).
  pose proof (Z.div_mod us (10 ^ 3)). lia.
Qed.

(** *** Time stamps *)

Lemma datetime_ok_ranges d :
  datetime_ok d = true →
  (1 ≤ year d ≤ 9999) ∧ (1 ≤ month d ≤ 12) ∧ (1 ≤ day d ≤ 31) ∧
  (0 ≤ hour d ≤ 23) ∧ (0 ≤ minute d ≤ 59) ∧ (0 ≤ second d ≤ 59) ∧
  (0 ≤ microsecond d ≤ 999999).
Proof.
  unfold datetime_ok, in_range. intros H.
  repeat (apply andb_prop in H as [H ?]).
  assert (days_in_month (year d) (month d) ≤ 31).
  { unfold days_in_month. repeat case_match; lia. }
  lia.
Qed.

Lemma char_append c s : String c "" +:+ s = String c s.
Proof. reflexivity. Qed.

Lemma parse_time_isoformat h mi sec us :
  0 ≤ h ≤ 23 → 0 ≤ mi ≤ 59 → 0 ≤ sec ≤ 59 → 0 ≤ us ≤ 999999 →
  parse_time (zero_pad 2 h +:+ ":" +:+ zero_pad 2 mi +:+ ":" +:+ zero_pad 2 sec +:+
              (if us =? 0 then "" else "." +:+ zero_pad 6 us))
  = Some (h, mi, sec, us).
Proof.
  intros Hh Hmi Hsec Hus. unfold parse_time.
  rewrite !char_append.
  rewrite read_zero_pad_exact by (cbn; lia). cbn.
  rewrite read_zero_pad_exact by (cbn; lia). cbn.
  rewrite read_zero_pad_exact by (cbn; lia). cbn.
  destruct (us =? 0) eqn:E; cbn.
  - apply Z.eqb_eq in E. by subst.
  - by rewrite parse_fraction_zero_pad.
Qed.

Lemma fromisoformat_isoformat d :
  datetime_ok d = true → fromisoformat (isoformat d) = Ret d.
Proof.
  intros Hok. destruct (datetime_ok_ranges d Hok) as (Hy & Hmo & Hd & Hh & Hmi & Hs & Hus).
  unfold fromisoformat, parse_iso, isoformat.
  rewrite !(char_append "-"), (char_append "T").
  rewrite read_zero_pad_exact by (cbn; lia). cbn.
  rewrite read_zero_pad_exact by (cbn; lia). cbn.
  rewrite read_zero_pad_exact by (cbn; lia). cbn.
  assert (∀ rest, zero_pad 2 (hour d) +:+ rest
                  = String (digit_char (hour d / 10 ^ 1 mod 10))
                           (zero_pad 1 (hour d) +:+ rest)) as Hhead by reflexivity.
  rewrite Hhead. cbn match. rewrite <- Hhead.
  rewrite parse_time_isoformat by done. cbn.
  destruct d. cbn in *. by rewrite Hok.
Qed.

(** *** Records and accounts *)

Lemma Transaction_from_dict_to_dict tx :
  transaction_ok tx = true → Transaction.from_dict (Transaction.to_dict tx) = Ret tx.
Proof.
  unfold transaction_ok. intros [Hkind Hts]%andb_prop.
  apply negb_true_iff in Hkind.
  unfold Transaction.from_dict, Transaction.to_dict, py_getitem.
  repeat (rewrite ?lookup_insert_eq; rewrite ?lookup_insert_ne by done). cbn.
  rewrite (fromisoformat_isoformat _ Hts). cbn.
  unfold Transaction.__init__. cbn. rewrite as_num_of_num, Hkind. by destruct tx.
Qed.

Lemma load_transactions_to_dict txs account :
  Forall (λ tx, transaction_ok tx = true) txs →
  load_transactions (Transaction.to_dict <$> txs) account
  = Ret (Obj (obj_account_id account) (obj_balance account) (obj_currency account)
             (obj_transactions account ++ txs)).
Proof.
  intros Hok. revert account. induction Hok as [|tx txs Htx _ IH]; intros account.
  - cbn. rewrite app_nil_r. by destruct account.
  - cbn [fmap list_fmap load_transactions].
    rewrite (Transaction_from_dict_to_dict tx Htx). cbn.
    rewrite IH. cbn. by rewrite <- app_assoc.
Qed.

(** C8.  For every account [a] (its records being transactions as the
    constructor accepts them: a kind that is not blank, a valid time
    stamp), [from_dict(to_dict(a))] returns an account, prints nothing, and
    the account has the id, the balance and the currency of [a] and the
    same log: the same records in the same order, each with its id, kind,
    amount, currency and time stamp, down to the microsecond. *)
Theorem from_dict_to_dict a :
  Forall (λ tx, transaction_ok tx = true) (transactions a) →
  from_dict (to_dict a) = (Ret (Some (untyped a)), []) ∧
  typed (untyped a) = Some a.
Proof.
  intros Hok. split.
  - unfold from_dict, from_dict_body, to_dict, py_getitem, py_get.
    repeat (rewrite ?lookup_insert_eq; rewrite ?lookup_insert_ne by done). cbn.
    by rewrite (load_transactions_to_dict _ _ Hok).
  - unfold typed, untyped. cbn. rewrite as_num_of_num. by destruct a.
Qed.

Lemma from_dict_to_dict_witness :
  from_dict (to_dict account_600_usd) = (Ret (Some (untyped account_600_usd)), []) ∧
  typed (untyped account_600_usd) = Some account_600_usd.
Proof.
  apply (from_dict_to_dict account_600_usd).
  repeat constructor.
Defined.

(** ** C9: reading a damaged export *)

(** A missing [account_id], [balance] or [currency] is a [KeyError], which
    [from_dict] catches: it prints its line and returns [None]. *)
Lemma from_dict_missing_key (d : gmap string value) :
  d !! "account_id" = None ∨ d !! "balance" = None ∨ d !! "currency" = None →
  from_dict (VDict d) = (Ret None, ["Error loading account from dict"]).
Proof.
  intros Hmiss. unfold from_dict, from_dict_body, py_getitem. cbn.
  destruct (d !! "account_id"); [cbn|done].
  destruct (d !! "balance"); [cbn|done].
  destruct (d !! "currency"); [cbn|done].
  by destruct Hmiss as [?|[?|?]].
Qed.

(** C9.  [from_dict({"balance": 100, "currency": "USD"})] returns [None]
    after printing its diagnostic.  But a record that does not parse
    because a field has the wrong type, here a transaction id that is a
    string, makes the [Transaction] constructor raise [TypeError], which
    [from_dict] does not catch: the exception reaches the caller. *)
Theorem from_dict_lets_TypeError_through :
  from_dict export_without_id = (Ret None, ["Error loading account from dict"]) ∧
  from_dict export_with_text_id
  = (Raise (TypeError "Transaction id must be an integer"), []).
Proof. split; by vm_compute. Qed.

(** ** Beyond the claims: the three operations *)

(** What one call can do to one account: nothing, one update with its
    record, or (a transfer to oneself) two. *)
Lemma perform_shape o (h : heap) l a' :
  perform o h !! l = Some a' →
  ∃ a, h !! l = Some a ∧
       (a' = a ∨ appended a a' ∨ ∃ am, appended a am ∧ appended am a').
Proof.
  assert (Hsame : h !! l = Some a' →
                  ∃ a, h !! l = Some a ∧
                       (a' = a ∨ appended a a' ∨ ∃ am, appended a am ∧ appended am a'))
    by (intros; eauto).
  destruct o as [self amount cur now|self amount cur now
                |self target amount cur now1 now2]; cbn.
  - destruct (h !! self) as [a|] eqn:Hself; [|by rewrite deposit_dangling].
    rewrite (deposit_unfold h self a Hself).
    destruct (as_num amount) as [n|]; [|done].
    destruct (num_ltb n (Int 0)); [done|].
    destruct (py_ne_str cur (currency a)); [done|].
    destruct (num_add (balance a) n) as [b|e]; [|done]. cbn.
    rewrite (alter_twice_as_insert _ _ h self a Hself).
    destruct (decide (self = l)) as [<-|Hne]; [|by rewrite lookup_insert_ne].
    rewrite lookup_insert_eq. intros [= <-]. exists a. split; [done|].
    right. left. by eexists _, _, _, _.
  - destruct (h !! self) as [a|] eqn:Hself; [|by rewrite withdraw_dangling].
    rewrite (withdraw_unfold h self a Hself).
    destruct (as_num amount) as [n|]; [|done].
    destruct (num_ltb n (Int 0)); [done|].
    destruct (py_ne_str cur (currency a)); [done|].
    destruct (num_gtb n (balance a)); [done|].
    destruct (num_sub (balance a) n) as [b|e]; [|done]. cbn.
    rewrite (alter_twice_as_insert _ _ h self a Hself).
    destruct (decide (self = l)) as [<-|Hne]; [|by rewrite lookup_insert_ne].
    rewrite lookup_insert_eq. intros [= <-]. exists a. split; [done|].
    right. left. by eexists _, _, _, _.
  - destruct (h !! self) as [a|] eqn:Hself;
      [|rewrite transfer_dangling by auto; done].
    destruct (h !! target) as [t|] eqn:Htarget;
      [|rewrite transfer_dangling by auto; done].
    destruct (transfer_cases h self target a t Hself Htarget amount cur now1 now2)
      as [[-> _]|(n & rate & p & b & _ & _ & _ & _ & _ & _ & _ & Hcredit)]; [done|].
    cbn zeta in Hcredit.
    assert (Ha : appended a (debited_source a t b n now1)) by by eexists _, _, _, _.
    destruct Hcredit as [(b' & _ & ->)|(e & _ & ->)]; cbn.
    + rewrite (credited_as_insert h self target a t Hself Htarget).
      destruct (decide (target = l)) as [<-|Hne].
      * rewrite lookup_insert_eq. intros [= <-]. exists t. split; [done|].
        unfold target_then. case_decide as E.
        -- assert (a = t) as <- by congruence.
           right. right. exists (debited_source a a b n now1). split; [done|].
           by eexists _, _, _, _.
        -- right. left. by eexists _, _, _, _.
      * rewrite lookup_insert_ne by done.
        destruct (decide (self = l)) as [<-|Hne']; [|by rewrite lookup_insert_ne].
        rewrite lookup_insert_eq. intros [= <-]. eauto.
    + rewrite (debited_as_insert h self a t Hself).
      destruct (decide (self = l)) as [<-|Hne']; [|by rewrite lookup_insert_ne].
      rewrite lookup_insert_eq. intros [= <-]. eauto.
Qed.

Lemma numbered_appended a a' :
  appended a a' → numbered (transactions a) → numbered (transactions a').
Proof.
  intros (n & kind & now & b & ->) Hnum i tx. cbn.
  intros [Hi|[Hi Htx]]%lookup_app_Some; [by apply Hnum|].
  apply list_lookup_singleton_Some in Htx as [Hz <-]. cbn. unfold next_id. lia.
Qed.

Lemma numbered_perform o (h : heap) :
  (∀ l a, h !! l = Some a → numbered (transactions a)) →
  ∀ l a, perform o h !! l = Some a → numbered (transactions a).
Proof.
  intros Hh l a' Hl.
  destruct (perform_shape _ _ _ _ Hl) as (a & Ha & [->|[Happ|(am & H1 & H2)]]).
  - eauto.
  - eauto using numbered_appended.
  - eauto using numbered_appended.
Qed.

(** X5.  Start from accounts without history and make any calls of
    [deposit], [withdraw] and [transfer].  In every log the record at
    position [i] (counting from 0) has id [i + 1]: ids count from 1 in the
    order of the log, without gaps or repeats, whatever failed in between. *)
Theorem log_ids_count_from_one (h0 : heap) os l a :
  fresh h0 → perform_all os h0 !! l = Some a → numbered (transactions a).
Proof.
  intros Hfresh. unfold perform_all.
  assert (H0 : ∀ l a, h0 !! l = Some a → numbered (transactions a)).
  { intros l0 a0 Hl0. rewrite (Hfresh _ _ Hl0). by intros i tx. }
  clear Hfresh. revert h0 H0 l a.
  induction os as [|o os IH]; intros h0 H0 l a; cbn; [by apply H0|].
  apply IH. by apply numbered_perform.
Qed.

Lemma log_ids_count_from_one_witness :
  ∃ a, perform_all sample_day store_usd_eur !! 2%nat = Some a ∧
       numbered (transactions a).
Proof.
  eexists. split; [by vm_compute|].
  apply (log_ids_count_from_one store_usd_eur sample_day 2%nat).
  - apply (bool_decide_unpack _). by vm_compute.
  - by vm_compute.
Defined.

(** X1.  [deposit] checks, in this order: the amount is a number, the
    amount is not below 0, the currency is the account's; it answers with
    the reason of the first check that fails.  And whenever its answer is
    not ["Deposit successful"], whatever the reason, the store is as it
    was. *)
Theorem deposit_validation_order (h : heap) self a amount cur now :
  h !! self = Some a →
  (as_num amount = None →
   deposit self amount cur now h
   = (Ret "Deposit error: Amount must be of type int or float", h)) ∧
  (∀ n, as_num amount = Some n → num_ltb n (Int 0) = true →
   deposit self amount cur now h = (Ret "Deposit error: Amount cannot be negative", h)) ∧
  (∀ n, as_num amount = Some n → num_ltb n (Int 0) = false →
   py_ne_str cur (currency a) = true →
   deposit self amount cur now h = (Ret "Deposit error: Currency mismatch", h)) ∧
  (∀ out h', deposit self amount cur now h = (out, h') →
   out ≠ Ret "Deposit successful" → h' = h).
Proof.
  intros Hself. rewrite (deposit_unfold h self a Hself). split_and!.
  - by intros ->.
  - by intros n -> ->.
  - by intros n -> -> ->.
  - intros out h'.
    destruct (as_num amount) as [n|]; [|congruence].
    destruct (num_ltb n (Int 0)); [congruence|].
    destruct (py_ne_str cur (currency a)); [congruence|].
    destruct (num_add (balance a) n); congruence.
Qed.

Lemma deposit_validation_order_witness :
  deposit 1%nat (VInt (-5)) (VStr "EUR") noon {[1%nat := account_500_usd]}
  = (Ret "Deposit error: Amount cannot be negative", {[1%nat := account_500_usd]}).
Proof.
  exact (proj1 (proj2 (deposit_validation_order {[1%nat := account_500_usd]} 1%nat
                         account_500_usd (VInt (-5)) (VStr "EUR") noon eq_refl))
           (Int (-5)) eq_refl eq_refl).
Defined.

(** X2.  A withdrawal that passes the four checks (a numeric amount, not
    below 0, in the account's currency, not above the balance) and whose
    difference can be computed succeeds: the balance becomes the old
    balance minus the amount, and one record of kind [withdraw], with that
    amount, the account's currency and the next id, is appended.  When the
    balance and the amount are integers the difference is exact and the
    new balance is not negative. *)
Theorem withdraw_valid (h : heap) self a amount n cur now b :
  h !! self = Some a →
  as_num amount = Some n →
  num_geb n (Int 0) = true →
  cur = VStr (currency a) →
  num_leb n (balance a) = true →
  num_sub (balance a) n = Ret b →
  withdraw self amount cur now h
  = (Ret "Withdrawal was successful",
     <[self := Bankaccount.Build (account_id a) b (currency a)
                 (transactions a ++
                  [Transaction.Build (Z.of_nat (length (transactions a)) + 1) n
                                     "withdraw" now (currency a)])]> h) ∧
  (∀ x y, balance a = Int x → n = Int y → b = Int (x - y) ∧ 0 ≤ x - y).
Proof.
  intros Hself Hn Hge -> Hle Hb. split.
  - rewrite (withdraw_unfold h self a Hself), Hn, (num_geb_not_ltb _ _ Hge).
    rewrite py_ne_str_same, (num_leb_not_gtb _ _ Hle), Hb.
    by rewrite (alter_twice_as_insert _ _ h self a Hself).
  - intros x y Hx ->. rewrite Hx in Hb, Hle. injection Hb as <-. split; [done|].
    unfold num_leb in Hle. cbn in Hle.
    destruct (Z.compare_spec y x); try done; lia.
Qed.

Lemma withdraw_valid_witness :
  withdraw 1%nat (VInt 200) (VStr "USD") noon {[1%nat := account_500_usd]}
  = (Ret "Withdrawal was successful",
     <[1%nat := Bankaccount.Build 1 (Int 300) "USD"
                  [Transaction.Build 1 (Int 200) "withdraw" noon "USD"]]>
       {[1%nat := account_500_usd]}).
Proof.
  exact (proj1 (withdraw_valid {[1%nat := account_500_usd]} 1%nat account_500_usd
                  (VInt 200) (Int 200) (VStr "USD") noon (Int 300)
                  eq_refl eq_refl eq_refl eq_refl eq_refl eq_refl)).
Defined.



(** X4.  A call reaches only the accounts it is given: every other account
    of the store is exactly as it was.  No call adds an account to the
    store or removes one, and no call changes the id or the currency of an
    account. *)
Theorem calls_are_local :
  (∀ o (h : heap) l, ¬ involves o l → perform o h !! l = h !! l) ∧
  (∀ os (h : heap), dom (perform_all os h) = dom h) ∧
  (∀ os (h : heap) l a',
     perform_all os h !! l = Some a' →
     ∃ a, h !! l = Some a ∧ account_id a' = account_id a ∧ currency a' = currency a).
Proof.
  assert (Hstep : ∀ o (h : heap) l, is_Some (perform o h !! l) ↔ is_Some (h !! l)).
  { intros o h l. split.
    - intros [a' Ha']. destruct (perform_shape _ _ _ _ Ha') as (a & Ha & _). eauto.
    - intros [a Ha].
      destruct o as [self amount cur now|self amount cur now
                    |self target amount cur now1 now2]; cbn.
      + destruct (h !! self) as [a0|] eqn:Hself; [|rewrite deposit_dangling; eauto].
        rewrite (deposit_unfold h self a0 Hself).
        repeat case_match; cbn; eauto; rewrite !lookup_alter_is_Some; eauto.
      + destruct (h !! self) as [a0|] eqn:Hself; [|rewrite withdraw_dangling; eauto].
        rewrite (withdraw_unfold h self a0 Hself).
        repeat case_match; cbn; eauto; rewrite !lookup_alter_is_Some; eauto.
      + destruct (h !! self) as [a0|] eqn:Hself;
          [|rewrite transfer_dangling; eauto].
        destruct (h !! target) as [t0|] eqn:Htarget;
          [|rewrite transfer_dangling; eauto].
        rewrite (transfer_unfold h self target a0 t0 Hself Htarget).
        unfold credited, debited.
        repeat case_match; cbn; eauto; rewrite !lookup_alter_is_Some; eauto. }
  split_and!.
  - intros o h l Hl.
    destruct o as [self amount cur now|self amount cur now
                  |self target amount cur now1 now2]; cbn in *.
    + destruct (h !! self) as [a0|] eqn:Hself; [|by rewrite deposit_dangling].
      rewrite (deposit_unfold h self a0 Hself).
      repeat case_match; cbn; try done. by rewrite !lookup_alter_ne.
    + destruct (h !! self) as [a0|] eqn:Hself; [|by rewrite withdraw_dangling].
      rewrite (withdraw_unfold h self a0 Hself).
      repeat case_match; cbn; try done. by rewrite !lookup_alter_ne.
    + destruct (h !! self) as [a0|] eqn:Hself;
        [|by rewrite transfer_dangling by auto].
      destruct (h !! target) as [t0|] eqn:Htarget;
        [|by rewrite transfer_dangling by auto].
      rewrite (transfer_unfold h self target a0 t0 Hself Htarget).
      assert (self ≠ l ∧ target ≠ l) as [? ?] by (split; intros ->; auto).
      unfold credited, debited.
      repeat case_match; cbn; try done; by rewrite !lookup_alter_ne.
  - intros os. induction os as [|o os IH]; intros h; [done|]. cbn.
    unfold perform_all in IH. rewrite IH.
    apply set_eq. intros l. by rewrite !elem_of_dom.
  - intros os h l a' Hl.
    destruct (perform_all_continues _ _ _ _ Hl) as (a & Ha & Hid & Hcur & _). eauto.
Qed.

Lemma calls_are_local_witness :
  perform (Deposit 1%nat (VInt 100) (VStr "USD") noon) store_usd_eur !! 2%nat
  = store_usd_eur !! 2%nat.
Proof.
  apply (proj1 calls_are_local (Deposit 1%nat (VInt 100) (VStr "USD") noon)
           store_usd_eur 2%nat).
  cbn. discriminate.
Defined.

(** ** Beyond the claims: transactions *)

(** X6.  The [Transaction] constructor succeeds exactly when the id is an
    integer, the amount a number, the kind a string that is not blank, the
    time stamp a datetime and the currency a string, and then the record
    holds these five values.  Otherwise it raises [TypeError] or
    [ValueError] and nothing else; it is [ValueError] exactly when the id
    and the amount are well typed and the kind is a blank string, whatever
    the time stamp and the currency are. *)
Theorem Transaction_init_checks i a ty ts c :
  match Transaction.__init__ i a ty ts c with
  | Ret tx =>
      as_int i = Some (Transaction.transaction_id tx) ∧
      as_num a = Some (Transaction.amount tx) ∧
      ty = VStr (Transaction.transaction_type tx) ∧
      blank (Transaction.transaction_type tx) = false ∧
      ts = VDatetime (Transaction.time_stamp tx) ∧
      c = VStr (Transaction.currency tx)
  | Raise (ValueError _) =>
      is_Some (as_int i) ∧ is_Some (as_num a) ∧ ∃ s, ty = VStr s ∧ blank s = true
  | Raise (TypeError _) =>
      as_int i = None ∨ as_num a = None ∨ as_str ty = None ∨
      (∃ s, ty = VStr s ∧ blank s = false ∧
            (as_datetime ts = None ∨ as_str c = None))
  | Raise _ => False
  end.
Proof.
  unfold Transaction.__init__.
  destruct (as_int i) as [i'|] eqn:Hi; [|by left].
  destruct (as_num a) as [a'|] eqn:Ha; [|by right; left].
  destruct ty as [| | | |s| | |]; cbn; try by (right; right; left).
  destruct (blank s) eqn:Hs; [by eauto|].
  destruct ts as [| | | | |d| |]; cbn; try by (do 3 right; eauto).
  destruct c as [| | | |s'| | |]; cbn; try by (do 3 right; eauto).
  done.
Qed.

(** X7.  [Transaction.from_dict] reads the keys [transaction_id], [amount],
    [transaction_type], [currency], [time_stamp] in this order, and only
    then parses the time stamp and calls the constructor.  So the first of
    these keys that is missing is reported by a [KeyError], whatever the
    values under the other keys; with all keys there, a time stamp that is
    not a string is a [TypeError] and one that does not parse a
    [ValueError], whatever the other values. *)
Theorem Transaction_from_dict_errors (d : gmap string value) :
  (∀ before k after,
     transaction_keys = before ++ k :: after →
     Forall (λ k', is_Some (d !! k')) before → d !! k = None →
     Transaction.from_dict (VDict d) = Raise (KeyError k)) ∧
  (Forall (λ k', is_Some (d !! k')) transaction_keys →
   ∀ v, d !! "time_stamp" = Some v →
     (as_str v = None →
      Transaction.from_dict (VDict d)
      = Raise (TypeError "fromisoformat: argument must be str")) ∧
     (∀ s, v = VStr s → parse_iso s = None →
      Transaction.from_dict (VDict d)
      = Raise (ValueError ("Invalid isoformat string: '" +:+ s +:+ "'")))).
Proof.
  split.
  - intros before k after Hkeys Hbefore Hk.
    unfold transaction_keys in Hkeys. unfold Transaction.from_dict, py_getitem.
    repeat (destruct before as [|? before];
            [injection Hkeys as <- _; by rewrite Hk|];
            injection Hkeys as <- Hkeys;
            apply Forall_cons in Hbefore as [[? ->] Hbefore]; cbn).
    by destruct before.
  - intros Hall v Hv. unfold transaction_keys in Hall.
    repeat (apply Forall_cons in Hall as [[? ?] Hall]).
    assert (x3 = v) as -> by congruence.
    unfold Transaction.from_dict, py_getitem. split.
    + intros Hstr. repeat match goal with H : d !! _ = Some _ |- _ => rewrite H; clear H end.
      cbn. by destruct v.
    + intros s -> Hparse.
      repeat match goal with H : d !! _ = Some _ |- _ => rewrite H; clear H end.
      cbn. unfold fromisoformat. by rewrite Hparse.
Qed.

Lemma Transaction_from_dict_errors_witness :
  Transaction.from_dict (VDict (<["transaction_id" := VStr "7"]> ∅))
  = Raise (KeyError "amount").
Proof.
  apply (proj1 (Transaction_from_dict_errors (<["transaction_id" := VStr "7"]> ∅))
           ["transaction_id"] "amount" ["transaction_type"; "currency"; "time_stamp"]).
  - reflexivity.
  - apply Forall_singleton. by exists (VStr "7").
  - reflexivity.
Defined.

(** X8.  Writing a transaction to a dictionary and reading it back gives
    the same transaction, with its id, amount, kind, currency and time
    stamp to the microsecond; so two transactions that differ never have
    the same dictionary. *)
Theorem Transaction_round_trip :
  (∀ tx, transaction_ok tx = true →
         Transaction.from_dict (Transaction.to_dict tx) = Ret tx) ∧
  (∀ tx1 tx2, transaction_ok tx1 = true → transaction_ok tx2 = true →
              Transaction.to_dict tx1 = Transaction.to_dict tx2 → tx1 = tx2).
Proof.
  split; [apply Transaction_from_dict_to_dict|].
  intros tx1 tx2 H1 H2 Heq.
  pose proof (Transaction_from_dict_to_dict tx1 H1) as R1.
  rewrite Heq, (Transaction_from_dict_to_dict tx2 H2) in R1. congruence.
Qed.

Lemma Transaction_round_trip_witness :
  Transaction.from_dict
    (Transaction.to_dict (Transaction.Build 1 (Int 100) "deposit" later "USD"))
  = Ret (Transaction.Build 1 (Int 100) "deposit" later "USD").
Proof.
  apply (proj1 Transaction_round_trip). reflexivity.
Defined.

(** ** Beyond the claims: exchange rates *)

Lemma exchange_rates_entries c1 c2 r :
  exchange_rates !! (c1, c2) = Some r →
  In ((c1, c2), r)
    [ (("USD", "UAN"), rate_USD_UAN);
      (("UAN", "USD"), one_over rate_USD_UAN);
      (("USD", "EUR"), rate_USD_EUR);
      (("EUR", "USD"), one_over rate_USD_EUR);
      (("UAN", "EUR"), float_mul (one_over rate_USD_UAN) rate_USD_EUR);
      (("EUR", "UAN"), float_mul (one_over rate_USD_EUR) rate_USD_UAN) ].
Proof.
  intros H. apply list_elem_of_In. unfold exchange_rates in H.
  by apply elem_of_list_to_map_2 in H.
Qed.

(** X9.  There is a rate from one currency to another exactly when the two
    are the same currency (any string) or both are among USD, UAN and EUR;
    so a rate exists in one direction exactly when it exists in the other.
    Every rate is a finite float above zero. *)
Theorem exchange_rate_available :
  (∀ c1 c2, is_Some (get_exchange_rate c1 c2) ↔
            c1 = c2 ∨ (c1 ∈ known_currencies ∧ c2 ∈ known_currencies)) ∧
  (∀ c1 c2, is_Some (get_exchange_rate c1 c2) ↔ is_Some (get_exchange_rate c2 c1)) ∧
  (∀ c1 c2 r, get_exchange_rate c1 c2 = Some r →
              float_is_finite r = true ∧ num_gtb (Float r) (Int 0) = true).
Proof.
  assert (Hchar : ∀ c1 c2, is_Some (get_exchange_rate c1 c2) ↔
            c1 = c2 ∨ (c1 ∈ known_currencies ∧ c2 ∈ known_currencies)).
  { intros c1 c2. split.
    - intros [r Hr]. unfold get_exchange_rate in Hr.
      destruct (String.eqb_spec c1 c2) as [->|Hne]; [by left|]. right.
      apply exchange_rates_entries in Hr. cbn in Hr.
      unfold known_currencies.
      repeat (destruct Hr as [[= <- <- _]|Hr]; [split; set_solver|]). done.
    - intros [->|[H1 H2]]; [rewrite get_exchange_rate_same; eauto|].
      unfold known_currencies in *.
      repeat (apply elem_of_cons in H1 as [->|H1]);
        repeat (apply elem_of_cons in H2 as [->|H2]);
        try (by apply elem_of_nil in H1); try (by apply elem_of_nil in H2);
        apply (bool_decide_unpack _); by vm_compute. }
  split_and!; [done| |].
  - intros c1 c2. rewrite !Hchar. intuition auto.
  - intros c1 c2 r Hr. unfold get_exchange_rate in Hr.
    destruct (String.eqb c1 c2); [injection Hr as <-; by vm_compute|].
    apply exchange_rates_entries in Hr. cbn in Hr.
    repeat (destruct Hr as [[= _ _ <-]|Hr]; [by vm_compute|]). done.
Qed.

(** ** Beyond the claims: reading an account *)

Lemma load_transactions_all items txs account :
  Forall2 (λ v tx, Transaction.from_dict v = Ret tx) items txs →
  load_transactions items account
  = Ret (Obj (obj_account_id account) (obj_balance account) (obj_currency account)
             (obj_transactions account ++ txs)).
Proof.
  intros Hall. revert account. induction Hall as [|v tx items txs Hv _ IH]; intros account.
  - cbn. rewrite app_nil_r. by destruct account.
  - cbn [load_transactions]. rewrite Hv. cbn. rewrite IH. cbn. by rewrite <- app_assoc.
Qed.

Lemma load_transactions_first_bad good txs bad rest e account :
  Forall2 (λ v tx, Transaction.from_dict v = Ret tx) good txs →
  Transaction.from_dict bad = Raise e →
  load_transactions (good ++ bad :: rest) account = Raise e.
Proof.
  intros Hall Hbad. revert account.
  induction Hall as [|v tx items txs' Hv _ IH]; intros account.
  - cbn. by rewrite Hbad.
  - cbn [app load_transactions]. rewrite Hv. cbn. apply IH.
Qed.

(** X10.  Given the three account keys, [Bankaccount.from_dict] reads the
    records in order and stops at the first one that does not parse.  If
    that record failed with a [ValueError] or a [KeyError], [from_dict]
    prints its line and returns [None]; if it failed with anything else,
    that exception leaves [from_dict] and nothing is printed.  Records
    after the first bad one are not looked at. *)
Theorem from_dict_first_bad_record (d : gmap string value) i b c good txs bad rest e :
  d !! "account_id" = Some i → d !! "balance" = Some b → d !! "currency" = Some c →
  d !! "transactions" = Some (VList (good ++ bad :: rest)) →
  Forall2 (λ v tx, Transaction.from_dict v = Ret tx) good txs →
  Transaction.from_dict bad = Raise e →
  from_dict (VDict d)
  = if is_ValueError e || is_KeyError e
    then (Ret None, ["Error loading account from dict"])
    else (Raise e, []).
Proof.
  intros Hi Hb Hc Htr Hgood Hbad.
  unfold from_dict, from_dict_body, py_getitem, py_get.
  rewrite Hi, Hb, Hc, Htr. cbn.
  by rewrite (load_transactions_first_bad _ _ _ _ _ _ Hgood Hbad).
Qed.

Lemma from_dict_first_bad_record_witness :
  from_dict (VDict fields_with_empty_record)
  = (Ret None, ["Error loading account from dict"]).
Proof.
  exact (from_dict_first_bad_record fields_with_empty_record (VInt 1) (VInt 100)
           (VStr "USD") [] [] (VDict ∅) [VNone] (KeyError "transaction_id")
           eq_refl eq_refl eq_refl eq_refl (Forall2_nil_2 _ _ _) eq_refl).
Defined.

(** X11.  When every record parses, [Bankaccount.from_dict] returns an
    account that holds the id, the balance and the currency of the
    dictionary as they are, unchecked, and the parsed records in the order
    of the list, and prints nothing; without a [transactions] key the log
    is empty.  The balance is taken from the dictionary: the records are
    not replayed. *)
Theorem from_dict_loads_as_written (d : gmap string value) i b c :
  d !! "account_id" = Some i → d !! "balance" = Some b → d !! "currency" = Some c →
  (d !! "transactions" = None → from_dict (VDict d) = (Ret (Some (Obj i b c [])), [])) ∧
  (∀ items txs,
     d !! "transactions" = Some (VList items) →
     Forall2 (λ v tx, Transaction.from_dict v = Ret tx) items txs →
     from_dict (VDict d) = (Ret (Some (Obj i b c txs)), [])).
Proof.
  intros Hi Hb Hc. unfold from_dict, from_dict_body, py_getitem, py_get.
  rewrite Hi, Hb, Hc. split.
  - by intros ->.
  - intros items txs -> Hall. cbn.
    by rewrite (load_transactions_all _ _ _ Hall).
Qed.

Lemma from_dict_loads_as_written_witness :
  from_dict (VDict fields_of_odd_types)
  = (Ret (Some (Obj (VStr "x") VNone (VInt 3) [])), []).
Proof.
  exact (proj1 (from_dict_loads_as_written fields_of_odd_types (VStr "x") VNone (VInt 3)
                  eq_refl eq_refl eq_refl) eq_refl).
Defined.

(** ** Beyond the claims: users *)

(** X12.  [get_account_by_id] returns the first account of the user's list
    whose id is equal to the argument, and [None] exactly when no account
    has that id (in particular for an argument that is not a number).  It
    prints one [Account verification] line for each account it looked at:
    the accounts up to and including the one found, or all of them. *)
Theorem get_account_by_id_first_match u v :
  match User.get_account_by_id u v with
  | (Some a, printed) =>
      ∃ i : nat,
        User.accounts u !! i = Some a ∧
        py_eq_int (account_id a) v = true ∧
        Forall (λ a', py_eq_int (account_id a') v = false) (take i (User.accounts u)) ∧
        printed = take (S i) (User.accounts u)
  | (None, printed) =>
      Forall (λ a', py_eq_int (account_id a') v = false) (User.accounts u) ∧
      printed = User.accounts u
  end.
Proof.
  unfold User.get_account_by_id.
  induction (User.accounts u) as [|a l IH]; cbn; [done|].
  destruct (py_eq_int (account_id a) v) eqn:Ha.
  - exists 0%nat. by split_and!.
  - destruct (User.find_account l v) as [[a'|] printed].
    + destruct IH as (i & Hi & Hv & Hbefore & ->).
      exists (S i). cbn. split_and!; try done. by constructor.
    + destruct IH as [Hall ->]. split; [by constructor|done].
Qed.

Lemma foldl_max_ge x l : x ≤ foldl Z.max x l ∧ Forall (λ y, y ≤ foldl Z.max x l) l.
Proof.
  revert x. induction l as [|y l IH]; intros x; cbn; [split; [lia|constructor]|].
  destruct (IH (Z.max x y)) as [H1 H2]. split; [lia|].
  constructor; [lia|done].
Qed.

(** X14.  The id [register] gives to a new user is above the id of every
    user already there (1 when there is none); so if the ids were all
    different before, they still are after, and the users already there
    are kept as they were, in front of the new one, who has no account. *)
Theorem register_gives_fresh_id users username surname :
  Forall (λ u, User.user_id u < Userservice.new_id users) users ∧
  (NoDup (User.user_id <$> users) →
   NoDup (User.user_id <$> Userservice.register users username surname)) ∧
  Userservice.register users username surname
  = users ++ [User.Build (Userservice.new_id users) username surname []] ∧
  Userservice.new_id [] = 1.
Proof.
  assert (Hfresh : Forall (λ u, User.user_id u < Userservice.new_id users) users).
  { unfold Userservice.new_id. destruct users as [|u0 users]; [constructor|]. cbn.
    destruct (foldl_max_ge (User.user_id u0) (User.user_id <$> users)) as [H0 Hl].
    constructor; [lia|].
    rewrite Forall_forall in Hl. apply Forall_forall. intros u Hu.
    assert (User.user_id u ≤ foldl Z.max (User.user_id u0) (User.user_id <$> users)).
    { apply Hl, list_elem_of_fmap. eauto. }
    lia. }
  split_and!; try done.
  intros Hnd. unfold Userservice.register. rewrite fmap_app. cbn.
  apply NoDup_app. split_and!; [done| |apply NoDup_singleton].
  intros z Hz Hz'. apply list_elem_of_singleton in Hz' as ->.
  apply list_elem_of_fmap in Hz as (u & Hu & Hin).
  rewrite Forall_forall in Hfresh. specialize (Hfresh u Hin). lia.
Qed.

Lemma register_gives_fresh_id_witness :
  NoDup (User.user_id <$> Userservice.register [alice] "Bob" "Builder").
Proof.
  apply (proj1 (proj2 (register_gives_fresh_id [alice] "Bob" "Builder"))).
  apply NoDup_singleton.
Defined.

Lemma load_account_to_dict a :
  Forall (λ tx, transaction_ok tx = true) (transactions a) →
  User.load_account (to_dict a) = Ret (untyped a).
Proof.
  intros Hok. unfold User.load_account, to_dict, py_getitem, py_get.
  repeat (rewrite ?lookup_insert_eq; rewrite ?lookup_insert_ne by done). cbn.
  by rewrite (load_transactions_to_dict _ _ Hok).
Qed.

Lemma load_accounts_to_dict l user :
  Forall (λ a, Forall (λ tx, transaction_ok tx = true) (transactions a)) l →
  User.load_accounts (to_dict <$> l) user
  = Ret (User.Obj (User.obj_username user) (User.obj_surname user) (User.obj_user_id user)
                  (User.obj_accounts user ++ (untyped <$> l))).
Proof.
  intros Hok. revert user. induction Hok as [|a l Ha _ IH]; intros user.
  - cbn. rewrite app_nil_r. by destruct user.
  - cbn [fmap list_fmap User.load_accounts].
    rewrite (load_account_to_dict a Ha). cbn. rewrite IH. cbn. by rewrite <- app_assoc.
Qed.

(** X13.  [User.from_dict(u.to_dict())] gives back the user: the id, the
    name, the surname, and the accounts in the same order, each with its
    id, balance, currency and full log. *)
Theorem User_from_dict_to_dict u :
  Forall (λ a, Forall (λ tx, transaction_ok tx = true) (transactions a)) (User.accounts u) →
  User.from_dict (User.to_dict u) = Ret (User.untyped u).
Proof.
  intros Hok. unfold User.from_dict, User.to_dict, py_getitem, py_get.
  repeat (rewrite ?lookup_insert_eq; rewrite ?lookup_insert_ne by done). cbn.
  by rewrite (load_accounts_to_dict _ _ Hok).
Qed.

Lemma User_from_dict_to_dict_witness :
  User.from_dict (User.to_dict alice) = Ret (User.untyped alice).
Proof.
  apply (User_from_dict_to_dict alice). repeat constructor.
Defined.

(** *** Balances by currency *)

Lemma balances_loop_raise l e : balances_loop l (Raise e) = Raise e.
Proof. induction l as [|a l IH]; [done|]. exact IH. Qed.

Lemma balances_loop_cons a l m :
  balances_loop (a :: l) (Ret m) = balances_loop l (User.add_balance m a).
Proof. reflexivity. Qed.

Lemma balances_loop_keys l m0 m :
  balances_loop l (Ret m0) = Ret m →
  ∀ c, is_Some (m !! c) ↔ is_Some (m0 !! c) ∨ c ∈ currency <$> l.
Proof.
  revert m0. induction l as [|a l IH]; intros m0 Hrun c.
  - injection Hrun as <-. cbn. rewrite elem_of_nil. tauto.
  - rewrite balances_loop_cons in Hrun.
    destruct (User.add_balance m0 a) as [m1|e] eqn:Hadd;
      [|by rewrite balances_loop_raise in Hrun].
    rewrite (IH m1 Hrun c). rewrite fmap_cons, elem_of_cons.
    assert (is_Some (m1 !! c) ↔ is_Some (m0 !! c) ∨ c = currency a) as ->; [|tauto].
    unfold User.add_balance in Hadd.
    destruct (m0 !! currency a) as [s|] eqn:Hs.
    + destruct (num_add s (balance a)) as [s'|]; [|done]. injection Hadd as <-.
      rewrite lookup_insert_is_Some. split; [intros [->|[_ ?]]; auto|].
      intros [?| ->]; [|by left].
      destruct (decide (currency a = c)); auto.
    + injection Hadd as <-.
      rewrite lookup_insert_is_Some. split; [intros [->|[_ ?]]; auto|].
      intros [?| ->]; [|by left].
      destruct (decide (currency a = c)); auto.
Qed.

Lemma tally_cons c a l :
  tally c (a :: l) = (if decide (currency a = c) then int_balance a else 0) + tally c l.
Proof.
  unfold tally. rewrite filter_cons. case_decide; [done|]. cbn. lia.
Qed.

Lemma balances_loop_ints l m0 :
  Forall holds_int l →
  (∀ c n, m0 !! c = Some n → ∃ z, n = Int z) →
  ∃ m, balances_loop l (Ret m0) = Ret m ∧
       ∀ c, m !! c = match m0 !! c with
                     | Some (Int z0) => Some (Int (z0 + tally c l))
                     | Some (Float _) => None
                     | None => if decide (c ∈ currency <$> l)
                               then Some (Int (tally c l)) else None
                     end.
Proof.
  intros Hl. revert m0. induction Hl as [|a l [z Hz] _ IH]; intros m0 Hm0.
  - exists m0. split; [done|]. intros c.
    destruct (m0 !! c) as [n|] eqn:Hc.
    + destruct (Hm0 _ _ Hc) as [z0 ->]. unfold tally. cbn. do 2 f_equal. lia.
    + rewrite decide_False; [done|]. cbn. apply not_elem_of_nil.
  - rewrite balances_loop_cons. unfold User.add_balance.
    assert (Hstep : ∃ z1, (match m0 !! currency a with
               | Some sum => sum' ← num_add sum (balance a);
                             Ret (<[currency a := sum']> m0)
               | None => Ret (<[currency a := balance a]> m0)
               end) = Ret (<[currency a := Int z1]> m0) ∧
               z1 = match m0 !! currency a with
                    | Some (Int z0) => z0 + z | _ => z end).
    { destruct (m0 !! currency a) as [n|] eqn:Hc.
      - destruct (Hm0 _ _ Hc) as [z0 ->]. rewrite Hz. cbn. eauto.
      - rewrite Hz. eauto. }
    destruct Hstep as (z1 & -> & Hz1).
    destruct (IH (<[currency a := Int z1]> m0)) as (m & Hrun & Hm).
    { intros c n. destruct (decide (currency a = c)) as [<-|Hne].
      - rewrite lookup_insert_eq. intros [= <-]. eauto.
      - rewrite lookup_insert_ne by done. apply Hm0. }
    exists m. split; [done|]. intros c. rewrite Hm, tally_cons.
    unfold int_balance. rewrite Hz. rewrite fmap_cons.
    destruct (decide (currency a = c)) as [<-|Hne].
    + rewrite lookup_insert_eq. subst z1.
      destruct (m0 !! currency a) as [n|] eqn:Hc.
      * destruct (Hm0 _ _ Hc) as [z0 ->]. do 2 f_equal. lia.
      * rewrite decide_True by apply list_elem_of_here. done.
    + rewrite lookup_insert_ne by done.
      destruct (m0 !! c) as [[z0|f]|] eqn:Hc; [done|done|].
      destruct (decide (c ∈ currency <$> l)) as [Hin|Hnin].
      * rewrite decide_True by (by apply list_elem_of_further). done.
      * rewrite decide_False; [done|].
        intros [?|?]%elem_of_cons; congruence.
Qed.

(** X15.  [get_balances_by_currency] returns a dictionary whose keys are
    exactly the currencies of the user's accounts (none for a user without
    accounts).  When the balances are integers it never raises, and the
    value under a currency is the exact sum of the balances of the accounts
    in that currency. *)
Theorem balances_by_currency u :
  (∀ m, User.get_balances_by_currency u = Ret m →
        ∀ c, is_Some (m !! c) ↔ c ∈ currency <$> User.accounts u) ∧
  (Forall holds_int (User.accounts u) →
   ∃ m, User.get_balances_by_currency u = Ret m ∧
        ∀ c, c ∈ currency <$> User.accounts u →
             m !! c = Some (Int (tally c (User.accounts u)))).
Proof.
  split.
  - intros m Hrun c.
    rewrite (balances_loop_keys (User.accounts u) ∅ m Hrun c), lookup_empty.
    split; [intros [[? [=]]|?]; done|auto].
  - intros Hints.
    destruct (balances_loop_ints (User.accounts u) ∅ Hints) as (m & Hrun & Hm);
      [by intros c n; rewrite lookup_empty|].
    exists m. split; [done|]. intros c Hc.
    by rewrite Hm, lookup_empty, decide_True.
Qed.

Lemma balances_by_currency_witness :
  ∃ m, User.get_balances_by_currency alice = Ret m ∧
       m !! "EUR" = Some (Int 42) ∧ m !! "USD" = Some (Int 600) ∧ m !! "UAN" = None.
Proof.
  destruct (proj2 (balances_by_currency alice)) as (m & Hrun & Hm).
  { repeat constructor; by eexists. }
  exists m. split; [exact Hrun|]. split_and!.
  - rewrite (Hm "EUR"); [reflexivity|]. apply (bool_decide_unpack _). by vm_compute.
  - rewrite (Hm "USD"); [reflexivity|]. apply (bool_decide_unpack _). by vm_compute.
  - destruct (m !! "UAN") as [n|] eqn:E; [|done]. exfalso.
    assert (Hin : "UAN" ∈ currency <$> User.accounts alice)
      by (apply (proj1 (balances_by_currency alice) m Hrun); eauto).
    revert Hin. apply (bool_decide_unpack _). by vm_compute.
Defined.

Lemma load_accounts_first_bad good objs bad rest e user :
  Forall2 (λ v o, User.load_account v = Ret o) good objs →
  User.load_account bad = Raise e →
  User.load_accounts (good ++ bad :: rest) user = Raise e.
Proof.
  intros Hall Hbad. revert user.
  induction Hall as [|v o items objs' Hv _ IH]; intros user.
  - cbn. by rewrite Hbad.
  - cbn [app User.load_accounts]. rewrite Hv. cbn. apply IH.
Qed.

(** X16.  [User.from_dict] catches nothing.  A missing [username],
    [surname] or [user_id] (looked up in this order) is a [KeyError] for
    the caller; and the first account that cannot be loaded, for a missing
    key or for a record that does not parse, makes [User.from_dict] raise
    that very exception, of whatever class, where [Bankaccount.from_dict]
    returns [None] for a [ValueError] or a [KeyError]. *)
Theorem User_from_dict_raises (d : gmap string value) :
  (d !! "username" = None → User.from_dict (VDict d) = Raise (KeyError "username")) ∧
  (is_Some (d !! "username") → d !! "surname" = None →
   User.from_dict (VDict d) = Raise (KeyError "surname")) ∧
  (is_Some (d !! "username") → is_Some (d !! "surname") → d !! "user_id" = None →
   User.from_dict (VDict d) = Raise (KeyError "user_id")) ∧
  (∀ good objs bad rest e,
     is_Some (d !! "username") → is_Some (d !! "surname") → is_Some (d !! "user_id") →
     d !! "accounts" = Some (VList (good ++ bad :: rest)) →
     Forall2 (λ v o, User.load_account v = Ret o) good objs →
     User.load_account bad = Raise e →
     User.from_dict (VDict d) = Raise e) ∧
  (∀ acc_data, User.load_account acc_data = from_dict_body acc_data).
Proof.
  unfold User.from_dict, py_getitem, py_get. split_and!.
  - by intros ->.
  - by intros [? ->] ->.
  - by intros [? ->] [? ->] ->.
  - intros good objs bad rest e [? ->] [? ->] [? ->] -> Hgood Hbad. cbn.
    by rewrite (load_accounts_first_bad _ _ _ _ _ _ Hgood Hbad).
  - done.
Qed.

Lemma User_from_dict_raises_witness :
  User.from_dict (VDict (<["username" := VStr "Alice"]> ∅)) = Raise (KeyError "surname").
Proof.
  apply (proj1 (proj2 (User_from_dict_raises (<["username" := VStr "Alice"]> ∅)))).
  - by exists (VStr "Alice").
  - reflexivity.
Defined.
